(** * Study session and XP engine of the AI Study Buddy front end

    A shallow embedding of the study-session functions of the front-end
    controller ([startStudySession], [pauseStudySession],
    [endStudySession], [updateSessionTimer], [showCurrentCard],
    [revealAnswer], [answerCard], [awardXP]) together with the globals they
    read and write, followed by the properties of the engine.

    Conventions of the embedding.
    - JavaScript numbers that hold counters, XP and millisecond timestamps
      are integers far below 2^53 and are modelled as [Z]; on that range
      [Math.floor (a / b)] for a positive [b] is [Z.div].
    - The one computation whose intermediate value is not an integer, the
      accuracy percentage, is carried out on IEEE-754 binary64 numbers
      ([PrimFloat]), exactly as the browser does.
    - The module-level variables are the fields of one [World] record that
      every function takes and returns.
    - [Date.now ()] is an argument [now] of the functions that read the clock.
    - The DOM is reduced to the two elements whose content the engine reads
      or that display engine state: the pause button and the timer label.
      Toasts and animations are recorded as [UiEvent]s, oldest first.
    - [setTimeout] callbacks of the engine are kept in a pending list and
      run by the [TimeoutFires] input; [setInterval] handles are kept in a
      list of running intervals. *)

From Stdlib Require Import ZArith List String Bool Lia.
From Stdlib Require Import Floats.PrimFloat Floats.FloatOps Floats.SpecFloat.
From Stdlib Require Import Numbers.Cyclic.Int63.Uint63.
Import ListNotations.
Open Scope string_scope.
Open Scope list_scope.
Open Scope Z_scope.

(** ** JavaScript arithmetic used by the engine *)

Module JS.

(** A counter (an integer from 0 to 2^53) as the double that represents it
    exactly. *)
Definition number (z : Z) : float := PrimFloat.of_uint63 (Uint63.of_Z z).

(** [Math.round]: the nearest integer, halves going up.  The double is
    decomposed into its exact sign, mantissa and exponent, so no rounding
    happens here. *)
Definition Math_round (x : float) : Z :=
  match Prim2SF x with
  | S754_finite s m e =>
      let num := if s then Z.neg m else Z.pos m in
      if 0 <=? e then num * 2 ^ e
      else (2 * num + 2 ^ (- e)) / 2 ^ (- e + 1)
  | _ => 0
  end.

(** [Math.floor (a / b)] on integers, [b] positive. *)
Definition floor_div (a b : Z) : Z := a / b.

(** [null] used as a number is [0] ([Date.now () - null]). *)
Definition num_of_nullable (t : option Z) : Z :=
  match t with Some v => v | None => 0 end.

(** [arr[i]]: [undefined] outside the array. *)
Definition index {A : Type} (arr : list A) (i : Z) : option A :=
  if i <? 0 then None else nth_error arr (Z.to_nat i).

(** Truthiness of a number that may be [null]. *)
Definition truthy (t : option Z) : bool :=
  match t with Some v => negb (v =? 0) | None => false end.

(** [a % b] keeps the sign of [a]. *)
Definition remainder (a b : Z) : Z := Z.rem a b.

(** [arr.length]. *)
Definition length {A : Type} (arr : list A) : Z := Z.of_nat (List.length arr).

End JS.

(** ** Data model *)

(** A flashcard as the session reads it.  The [id] that created cards carry
    is never read by the session code, and the fallback cards have none. *)
Record Card := mkCard {
  question : string;
  answer : string;
  subject : string;
  difficulty : string
}.

(** An entry of the built-in sample table. *)
Record SampleQuestion := mkSample {
  sq_question : string;
  sq_answer : string;
  sq_difficulty : string
}.

(** [studySession].  [timer] is the [setInterval] handle or [null];
    [sessionTime] is written once by [startStudySession] and absent from the
    object that [endStudySession] installs. *)
Record StudySession := mkSession {
  active : bool;
  startTime : option Z;
  currentCard : Z;
  cardsStudied : Z;
  correctAnswers : Z;
  cards : list Card;
  timer : option positive;
  sessionTime : option Z
}.

(** [userStats]. *)
Record UserStats := mkStats {
  level : Z;
  xp : Z;
  streak : Z;
  totalCards : Z
}.

(** [currentUser] (the [email] is derived from [username] and not kept). *)
Record User := mkUser {
  username : string;
  user_level : Z;
  user_xp : Z;
  user_streak : Z;
  plan : string
}.

(** The two contents that the code writes into the pause button. *)
Inductive ButtonHtml := HtmlPause | HtmlResume.

(** [pauseBtn.innerHTML.includes ('Pause')]: the resume markup is
    [<i class=fas fa-play></i> Resume], which has no capital-P [Pause]. *)
Definition includes_Pause (h : ButtonHtml) : bool :=
  match h with HtmlPause => true | HtmlResume => false end.

(** The part of the document the engine depends on: [None] is a missing
    element; the timer label holds (minutes, seconds). *)
Record Dom := mkDom {
  pauseBtn : option ButtonHtml;
  sessionTimer : option (Z * Z)
}.

Inductive NotificationType := success | error | info | warning.

(** The texts passed to [showNotification] by the session functions; the
    template of the completion toast keeps its three interpolated numbers. *)
Inductive Message :=
| NoFlashcardsAvailable
| SessionStarted
| SessionPaused
| SessionResumed
| SessionComplete (studied accuracy sessionXP : Z).

(** What the user is shown. *)
Inductive UiEvent :=
| Notification (m : Message) (t : NotificationType)
| XPGain (amount : Z) (reason : string)
| LevelUp (newLevel : Z).

(** Engine callbacks handed to [setTimeout]. *)
Inductive Callback := CbShowCurrentCard | CbEndStudySession.

Record World := mkWorld {
  savedCards : list Card;
  generatedCards : list Card;
  studySession : StudySession;
  userStats : UserStats;
  currentUser : option User;
  dom : Dom;
  intervals : list positive;
  nextHandle : positive;
  timeouts : list (Callback * Z);
  events : list UiEvent
}.

(** Field updates. *)

Definition set_studySession (ss : StudySession) (w : World) : World :=
  mkWorld (savedCards w) (generatedCards w) ss (userStats w) (currentUser w)
          (dom w) (intervals w) (nextHandle w) (timeouts w) (events w).

Definition set_userStats (us : UserStats) (w : World) : World :=
  mkWorld (savedCards w) (generatedCards w) (studySession w) us (currentUser w)
          (dom w) (intervals w) (nextHandle w) (timeouts w) (events w).

Definition set_currentUser (u : option User) (w : World) : World :=
  mkWorld (savedCards w) (generatedCards w) (studySession w) (userStats w) u
          (dom w) (intervals w) (nextHandle w) (timeouts w) (events w).

Definition set_dom (d : Dom) (w : World) : World :=
  mkWorld (savedCards w) (generatedCards w) (studySession w) (userStats w)
          (currentUser w) d (intervals w) (nextHandle w) (timeouts w) (events w).

Definition set_timeouts (ts : list (Callback * Z)) (w : World) : World :=
  mkWorld (savedCards w) (generatedCards w) (studySession w) (userStats w)
          (currentUser w) (dom w) (intervals w) (nextHandle w) ts (events w).

Definition emit (e : UiEvent) (w : World) : World :=
  mkWorld (savedCards w) (generatedCards w) (studySession w) (userStats w)
          (currentUser w) (dom w) (intervals w) (nextHandle w) (timeouts w)
          (events w ++ [e]).

Definition set_timer (t : option positive) (ss : StudySession) : StudySession :=
  mkSession (active ss) (startTime ss) (currentCard ss) (cardsStudied ss)
            (correctAnswers ss) (cards ss) t (sessionTime ss).

(** ** Browser primitives *)

(** [setInterval (updateSessionTimer, 1000)]: a fresh handle that is now
    running.  Handles are positive, hence truthy. *)
Definition setInterval (w : World) : positive * World :=
  let h := nextHandle w in
  (h, mkWorld (savedCards w) (generatedCards w) (studySession w) (userStats w)
              (currentUser w) (dom w) (intervals w ++ [h]) (Pos.succ h) (timeouts w)
              (events w)).

Definition clearInterval (h : positive) (w : World) : World :=
  mkWorld (savedCards w) (generatedCards w) (studySession w) (userStats w)
          (currentUser w) (dom w)
          (filter (fun k => negb (Pos.eqb k h)) (intervals w))
          (nextHandle w) (timeouts w) (events w).

Definition setTimeout (cb : Callback) (delay : Z) (w : World) : World :=
  set_timeouts (timeouts w ++ [(cb, delay)]) w.

(** ** Constants *)

(** [XP_VALUES[d]]: the table's three keys; a difficulty is the value of
    the difficulty select or comes from the sample table. *)
Definition XP_VALUES (d : string) : option Z :=
  if String.eqb d "easy" then Some 3
  else if String.eqb d "medium" then Some 5
  else if String.eqb d "hard" then Some 8
  else None.

(** [XP_VALUES[card.difficulty] || 5]; every table value is non-zero, so
    the default is taken exactly when the key is missing. *)
Definition xpValue (c : Card) : Z :=
  match XP_VALUES (difficulty c) with Some v => v | None => 5 end.

(** ** Display helpers *)

Definition showNotification (m : Message) (t : NotificationType) (w : World)
  : World := emit (Notification m t) w.

Definition showXPGain (amount : Z) (reason : string) (w : World) : World :=
  emit (XPGain amount reason) w.

Definition showLevelUp (lvl : Z) (w : World) : World := emit (LevelUp lvl) w.

(** [updateUserDashboard] only copies [userStats] into text nodes. *)
Definition updateUserDashboard (w : World) : World := w.

(** ** Gamification *)

Definition awardXP (amount : Z) (reason : string) (w : World) : World :=
  let us := userStats w in
  let us1 := mkStats (level us) (xp us + amount) (streak us)
                     (JS.length (savedCards w) + JS.length (generatedCards w)) in
  let w1 := set_userStats us1 w in
  let newLevel := JS.floor_div (xp us1) 100 + 1 in
  let w2 :=
    if level us1 <? newLevel then
      let w' := set_userStats (mkStats newLevel (xp us1) (streak us1)
                                       (totalCards us1)) w1 in
      let w'' := match currentUser w' with
                 | Some u => set_currentUser
                               (Some (mkUser (username u) newLevel (user_xp u)
                                             (user_streak u) (plan u))) w'
                 | None => w'
                 end in
      showLevelUp newLevel w''
    else w1 in
  updateUserDashboard (showXPGain amount reason w2).

(** ** Built-in sample questions

    [sampleQuestions], keys in the order of the object literal, which is the
    order [Object.keys] enumerates them in. *)

Definition math_questions : list SampleQuestion :=
  [ mkSample "What is the Pythagorean theorem?"
             "a² + b² = c², where c is the hypotenuse of a right triangle."
             "medium";
    mkSample "What is the quadratic formula?"
             "x = [-b ± √(b² - 4ac)] / (2a)" "hard";
    mkSample "What is 2 + 2?" "4" "easy" ].

Definition english_questions : list SampleQuestion :=
  [ mkSample "What is a metaphor?"
             "A figure of speech that describes an object or action in a way that isn't literally true."
             "medium";
    mkSample "What are the three main types of irony?"
             "Verbal, situational, and dramatic irony." "hard";
    mkSample "What is a noun?"
             "A word that names a person, place, thing, or idea." "easy" ].

Definition spanish_questions : list SampleQuestion :=
  [ mkSample "How do you say 'hello' in Spanish?" "Hola" "easy";
    mkSample "What is the difference between 'ser' and 'estar'?"
             "Both mean 'to be', but 'ser' is for permanent traits and 'estar' for temporary states."
             "hard";
    mkSample "How do you say 'thank you' in Spanish?" "Gracias" "easy" ].

Definition german_questions : list SampleQuestion :=
  [ mkSample "How do you say 'thank you' in German?" "Danke" "easy";
    mkSample "What are the three German articles?"
             "Der (masculine), die (feminine), das (neuter)" "medium";
    mkSample "How do you say 'good morning' in German?" "Guten Morgen" "easy" ].

Definition science_questions : list SampleQuestion :=
  [ mkSample "What is photosynthesis?"
             "The process by which plants convert light energy into chemical energy."
             "medium";
    mkSample "What are the three states of matter?" "Solid, liquid, and gas."
             "easy";
    mkSample "What is DNA?"
             "Deoxyribonucleic acid - the molecule that carries genetic information."
             "hard" ].

Definition history_questions : list SampleQuestion :=
  [ mkSample "When did World War II end?" "1945" "easy";
    mkSample "Who was the first president of the United States?"
             "George Washington" "easy";
    mkSample "What was the Renaissance?"
             "A period of cultural rebirth in Europe from the 14th to 17th centuries."
             "medium" ].

Definition SampleTable := list (string * list SampleQuestion).

Definition sampleQuestions : SampleTable :=
  [ ("math", math_questions); ("english", english_questions);
    ("spanish", spanish_questions); ("german", german_questions);
    ("science", science_questions); ("history", history_questions) ].

(** [{...q, subject}]. *)
Definition with_subject (subj : string) (q : SampleQuestion) : Card :=
  mkCard (sq_question q) (sq_answer q) subj (sq_difficulty q).

(** The [forEach] over [Object.keys (sampleQuestions)] that pushes every
    category's mapped entries onto [studyCards]. *)
Definition fallbackCards (table : SampleTable) : list Card :=
  fold_left (fun studyCards entry =>
               studyCards ++ map (with_subject (fst entry)) (snd entry))
            table [].

(** ** Study session *)

(** The object that [endStudySession] installs. *)
Definition resetSession : StudySession :=
  mkSession false None 0 0 0 [] None None.

(** The initial value of the global. *)
Definition initialSession : StudySession :=
  mkSession false None 0 0 0 [] None (Some 0).

(** [Math.round ((correctAnswers / cardsStudied) * 100)], guarded as in
    [endStudySession]. *)
Definition accuracy (correct studied : Z) : Z :=
  if 0 <? studied then
    JS.Math_round
      (PrimFloat.mul (PrimFloat.div (JS.number correct) (JS.number studied))
                     (JS.number 100))
  else 0.

(** [Math.floor ((Date.now () - studySession.startTime) / 1000)]. *)
Definition sessionDuration (now : Z) (ss : StudySession) : Z :=
  JS.floor_div (now - JS.num_of_nullable (startTime ss)) 1000.

(** The running total [sessionXP] of [endStudySession]. *)
Definition sessionXP (studied acc duration : Z) : Z :=
  let x := studied * 2 in
  let x := if 80 <=? acc then x + 10 else x in
  let x := if 600 <=? duration then x + 5 else x in
  x.

Definition endStudySession (now : Z) (w : World) : World :=
  let ss := studySession w in
  let w1 := match timer ss with
            | Some h => clearInterval h w
            | None => w
            end in
  let duration := sessionDuration now ss in
  let acc := accuracy (correctAnswers ss) (cardsStudied ss) in
  let bonus := sessionXP (cardsStudied ss) acc duration in
  let w2 := if 0 <? bonus then awardXP bonus "Study session completed!" w1
            else w1 in
  let w3 := showNotification (SessionComplete (cardsStudied ss) acc bonus)
                             success w2 in
  let w4 := set_studySession resetSession w3 in
  let d := dom w4 in
  set_dom (mkDom (match pauseBtn d with
                  | Some _ => Some HtmlPause
                  | None => None
                  end)
                 (match sessionTimer d with
                  | Some _ => Some (0, 0)
                  | None => None
                  end)) w4.

Definition updateSessionTimer (now : Z) (w : World) : World :=
  let ss := studySession w in
  match sessionTimer (dom w) with
  | None => w
  | Some _ =>
      if negb (active ss) || negb (JS.truthy (startTime ss)) then w
      else
        let elapsed := JS.floor_div (now - JS.num_of_nullable (startTime ss))
                                    1000 in
        let minutes := JS.floor_div elapsed 60 in
        let seconds := JS.remainder elapsed 60 in
        set_dom (mkDom (pauseBtn (dom w)) (Some (minutes, seconds))) w
  end.

(** Past the end of the deck the card view closes the session; otherwise it
    only fills in the card's text, badges and progress bar. *)
Definition showCurrentCard (now : Z) (w : World) : World :=
  let ss := studySession w in
  if JS.length (cards ss) <=? currentCard ss then endStudySession now w
  else w.

Definition startStudySessionFrom (table : SampleTable) (now : Z) (w : World)
  : World :=
  let studyCards := savedCards w ++ generatedCards w in
  let studyCards := if JS.length studyCards =? 0 then fallbackCards table
                    else studyCards in
  if JS.length studyCards =? 0 then
    showNotification NoFlashcardsAvailable error w
  else
    let w1 := set_studySession
                (mkSession true (Some now) 0 0 0 studyCards None (Some 0)) w in
    let (h, w2) := setInterval w1 in
    let w3 := set_studySession (set_timer (Some h) (studySession w2)) w2 in
    let w4 := showCurrentCard now w3 in
    showNotification SessionStarted success w4.

Definition startStudySession : Z -> World -> World :=
  startStudySessionFrom sampleQuestions.

Definition pauseStudySession (w : World) : World :=
  match pauseBtn (dom w) with
  | None => w
  | Some html =>
      let w1 := match timer (studySession w) with
                | Some h =>
                    let w' := clearInterval h w in
                    set_studySession (set_timer None (studySession w')) w'
                | None => w
                end in
      if includes_Pause html then
        let w2 := set_dom (mkDom (Some HtmlResume) (sessionTimer (dom w1))) w1 in
        showNotification SessionPaused info w2
      else
        let (h, w2) := setInterval w1 in
        let w3 := set_studySession (set_timer (Some h) (studySession w2)) w2 in
        let w4 := set_dom (mkDom (Some HtmlPause) (sessionTimer (dom w3))) w3 in
        showNotification SessionResumed info w4
  end.

(** [revealAnswer] only flips the card element. *)
Definition revealAnswer (w : World) : World := w.

(** How a handler finished: reading [card.difficulty] of an [undefined]
    card raises a [TypeError] that nothing catches, which abandons the rest
    of the handler and keeps what it had already written. *)
Inductive Completion := Returned | ThrewTypeError.

Definition answerCard (isCorrect : bool) (w : World) : World * Completion :=
  let ss := studySession w in
  let w1 := set_studySession
              (mkSession (active ss) (startTime ss) (currentCard ss)
                         (cardsStudied ss + 1) (correctAnswers ss) (cards ss)
                         (timer ss) (sessionTime ss)) w in
  let r :=
    if isCorrect then
      let ss1 := studySession w1 in
      let w2 := set_studySession
                  (mkSession (active ss1) (startTime ss1) (currentCard ss1)
                             (cardsStudied ss1) (correctAnswers ss1 + 1)
                             (cards ss1) (timer ss1) (sessionTime ss1)) w1 in
      match JS.index (cards (studySession w2)) (currentCard (studySession w2))
      with
      | Some card => (awardXP (xpValue card) "Correct answer!" w2, Returned)
      | None => (w2, ThrewTypeError)
      end
    else (w1, Returned) in
  match r with
  | (w3, ThrewTypeError) => (w3, ThrewTypeError)
  | (w3, Returned) =>
      let ss3 := studySession w3 in
      let w4 := set_studySession
                  (mkSession (active ss3) (startTime ss3) (currentCard ss3 + 1)
                             (cardsStudied ss3) (correctAnswers ss3) (cards ss3)
                             (timer ss3) (sessionTime ss3)) w3 in
      if JS.length (cards (studySession w4)) <=? currentCard (studySession w4)
      then (setTimeout CbEndStudySession 1000 w4, Returned)
      else (setTimeout CbShowCurrentCard 500 w4, Returned)
  end.

(** ** Session start-up and log-out *)

Definition simulateLogin (name : string) (w : World) : World :=
  let u := mkUser name 5 450 7 "Student" in
  let w1 := set_currentUser (Some u) w in
  set_userStats (mkStats (user_level u) (user_xp u) (user_streak u)
                         (JS.length (savedCards w1)
                          + JS.length (generatedCards w1))) w1.

(** The page as it is loaded: the globals at their initial values, both
    elements present, no handle handed out yet. *)
Definition initialWorld : World :=
  mkWorld [] [] initialSession (mkStats 1 0 0 0) None
          (mkDom (Some HtmlPause) (Some (0, 0))) [] 1%positive [] [].

(** ** The page as an event-driven machine

    What can happen to the session: a click on one of the buttons that
    [setupEventListeners] wires to the session functions, a pending
    [setTimeout] callback coming due, or a tick of a running interval.
    [TimeoutFires i] runs the [i]-th pending callback, so every order in
    which the browser may run them is covered. *)

Inductive Input :=
| ClickStart (now : Z)
| ClickPause
| ClickEnd (now : Z)
| ClickReveal
| ClickAnswer (isCorrect : bool)
| TimeoutFires (i : nat) (now : Z)
| IntervalTick (h : positive) (now : Z).

Definition runCallback (cb : Callback) (now : Z) (w : World) : World :=
  match cb with
  | CbShowCurrentCard => showCurrentCard now w
  | CbEndStudySession => endStudySession now w
  end.

(** The list without its [i]-th element. *)
Fixpoint remove_nth {A : Type} (i : nat) (l : list A) : list A :=
  match l, i with
  | [], _ => []
  | _ :: t, O => t
  | x :: t, S j => x :: remove_nth j t
  end.

Definition step (i : Input) (w : World) : World :=
  match i with
  | ClickStart now => startStudySession now w
  | ClickPause => pauseStudySession w
  | ClickEnd now => endStudySession now w
  | ClickReveal => revealAnswer w
  | ClickAnswer isCorrect => fst (answerCard isCorrect w)
  | TimeoutFires k now =>
      match nth_error (timeouts w) k with
      | Some (cb, _) =>
          runCallback cb now (set_timeouts (remove_nth k (timeouts w)) w)
      | None => w
      end
  | IntervalTick h now =>
      if existsb (Pos.eqb h) (intervals w) then updateSessionTimer now w
      else w
  end.

Definition run (tr : list Input) (w : World) : World :=
  fold_left (fun acc i => step i acc) tr w.

(** Running every callback that is pending, oldest first. *)
Definition drain (now : Z) (w : World) : World :=
  run (repeat (TimeoutFires 0 now) (List.length (timeouts w))) w.

(** ** Observations on the event log *)

(** The XP toasts, as (amount, reason). *)
Fixpoint xpAwards (evs : list UiEvent) : list (Z * string) :=
  match evs with
  | [] => []
  | XPGain amount reason :: t => (amount, reason) :: xpAwards t
  | _ :: t => xpAwards t
  end.

(** The level-up toasts. *)
Fixpoint levelUps (evs : list UiEvent) : list Z :=
  match evs with
  | [] => []
  | LevelUp l :: t => l :: levelUps t
  | _ :: t => levelUps t
  end.

(** The completion toasts, as (cards studied, accuracy, bonus XP). *)
Fixpoint summaries (evs : list UiEvent) : list (Z * Z * Z) :=
  match evs with
  | [] => []
  | Notification (SessionComplete n a x) _ :: t => (n, a, x) :: summaries t
  | _ :: t => summaries t
  end.

(** ** Invariants *)

(** The level is the one derived from the experience. *)
Definition level_inv (w : World) : Prop :=
  level (userStats w) = JS.floor_div (xp (userStats w)) 100 + 1.

(** ** Definitions used by the statements *)

(** The percentage as the specification words it: the exact quotient
    [100 * correct / studied] rounded to the nearest integer (halves up),
    and [0] when nothing was studied. *)
Definition accuracy_spec (correct studied : Z) : Z :=
  if 0 <? studied then (2 * (100 * correct) + studied) / (2 * studied) else 0.

(** A page with [n] saved cards of one difficulty and a fresh user. *)
Definition worldWithSaved (n : nat) (d : string) : World :=
  mkWorld (repeat (mkCard "q" "a" "math" d) n) [] initialSession
          (mkStats 1 0 0 0) None (mkDom (Some HtmlPause) (Some (0, 0)))
          [] 1%positive [] [].

(** [accuracy] and [accuracy_spec] agree for every number of correct answers
    on decks of at most [n] cards. *)
Definition agree_upto (n : nat) : bool :=
  forallb (fun studied =>
             forallb (fun correct =>
                        accuracy (Z.of_nat correct) (Z.of_nat studied)
                        =? accuracy_spec (Z.of_nat correct) (Z.of_nat studied))
                     (seq 0 (S studied)))
          (seq 0 (S n)).

(** Equality of cards and lists without repeated cards, as booleans. *)
Definition card_eqb (c1 c2 : Card) : bool :=
  String.eqb (question c1) (question c2)
  && String.eqb (answer c1) (answer c2)
  && String.eqb (subject c1) (subject c2)
  && String.eqb (difficulty c1) (difficulty c2).

Fixpoint distinct_cards (l : list Card) : bool :=
  match l with
  | [] => true
  | c :: t => negb (existsb (card_eqb c) t) && distinct_cards t
  end.

(** Inputs that occur while a session is being played: answers, reveals,
    and the browser running callbacks and ticks. *)
Definition session_input (i : Input) : bool :=
  match i with
  | ClickAnswer _ | ClickReveal | TimeoutFires _ _ | IntervalTick _ _ => true
  | ClickStart _ | ClickPause | ClickEnd _ => false
  end.

Definition is_answer (i : Input) : bool :=
  match i with ClickAnswer _ => true | _ => false end.

Definition count_answers (tr : list Input) : nat :=
  List.length (filter is_answer tr).

(** *** Phases of a session played on [deck], whose log at the start was
    [ev0] *)

(** [k] cards answered, more to come: only card views are pending and no
    completion toast has been shown since the start. *)
Definition Running (deck : list Card) (ev0 : list UiEvent) (k : nat)
  (w : World) : Prop :=
  cards (studySession w) = deck
  /\ currentCard (studySession w) = Z.of_nat k
  /\ cardsStudied (studySession w) = Z.of_nat k
  /\ (k < List.length deck)%nat
  /\ Forall (fun t => fst t = CbShowCurrentCard) (timeouts w)
  /\ exists evs, events w = ev0 ++ evs /\ summaries evs = [].

(** Every card answered and the session not yet closed: something is
    pending, and whichever callback runs next closes the session. *)
Definition Closing (deck : list Card) (ev0 : list UiEvent) (w : World)
  : Prop :=
  cards (studySession w) = deck
  /\ currentCard (studySession w) = Z.of_nat (List.length deck)
  /\ cardsStudied (studySession w) = Z.of_nat (List.length deck)
  /\ timeouts w <> []
  /\ exists evs, events w = ev0 ++ evs /\ summaries evs = [].

(** The session object has been reset, and the first completion toast since
    the start reported all the cards of the deck. *)
Definition Ended (deck : list Card) (ev0 : list UiEvent) (w : World)
  : Prop :=
  studySession w = resetSession
  /\ exists evs a x rest,
       events w = ev0 ++ evs
       /\ summaries evs = (Z.of_nat (List.length deck), a, x) :: rest.

(** * The rest of the page

    The functions around the session engine: what the dashboard shows,
    the creation and saving of cards, the todo list and the timetable.
    Their toasts are returned by the handler that shows them.  A handler
    that waits ([await]) before it acts is modelled from the point where
    it resumes, on the page as it is at that moment; the values it read
    from the form before waiting are its arguments, named as its locals. *)

(** ** Session bookkeeping *)

(** The counters of the session stay ordered. *)
Definition counters_inv (w : World) : Prop :=
  0 <= correctAnswers (studySession w) <= cardsStudied (studySession w)
  /\ 0 <= currentCard (studySession w) <= cardsStudied (studySession w).

(** The intervals that run are exactly the one the session object holds. *)
Definition timer_inv (w : World) : Prop :=
  intervals w = match timer (studySession w) with
                | Some h => [h]
                | None => []
                end.




(** ** The dashboard *)

(** What [updateUserDashboard] writes into the elements of the dashboard
    that exist; nothing when nobody is logged in. *)
Record Dashboard := mkDashboard {
  userLevel : Z;
  userXp : Z;
  currentStreak : Z;
  shownTotalCards : Z;
  userPlan : string;
  progressPercentage : float;
  currentLevel : Z;
  nextLevel : Z;
  xpToNext : Z
}.

Definition dashboard (w : World) : option Dashboard :=
  match currentUser w with
  | None => None
  | Some u =>
      let us := userStats w in
      let currentLevelXP := JS.remainder (xp us) 100 in
      Some (mkDashboard (level us) (xp us) (streak us) (totalCards us) (plan u)
              (PrimFloat.mul
                 (PrimFloat.div (JS.number currentLevelXP) (JS.number 100))
                 (JS.number 100))
              (level us) (level us + 1) (100 - currentLevelXP))
  end.

(** ** Creating and saving cards *)

Definition set_generatedCards (cs : list Card) (w : World) : World :=
  mkWorld (savedCards w) cs (studySession w) (userStats w) (currentUser w)
          (dom w) (intervals w) (nextHandle w) (timeouts w) (events w).

Definition set_savedCards (cs : list Card) (w : World) : World :=
  mkWorld cs (generatedCards w) (studySession w) (userStats w) (currentUser w)
          (dom w) (intervals w) (nextHandle w) (timeouts w) (events w).

(** The toasts of the card handlers. *)
Inductive CardToast :=
| FormElementsNotFound
| EnterNotesFirst
| GeneratedFlashcards (n : Z)
| EnterQuestionAndAnswer
| ManualFlashcardAdded
| NoCardsToSave
| SaveButtonNotFound
| SavedFlashcards (n : Z)
| AllCardsCleared.

(** [sampleQuestions[subject]]. *)
Fixpoint lookupSample (table : SampleTable) (key : string)
  : option (list SampleQuestion) :=
  match table with
  | [] => None
  | (k, qs) :: rest => if String.eqb k key then Some qs else lookupSample rest key
  end.

(** [generateSampleCards (subject, difficulty, count)], [count] a
    non-negative integer.  The cards take the requested subject and
    difficulty, whatever the difficulty of the sample entry. *)
Definition generateSampleCards (subj diff : string) (count : nat)
  : list Card :=
  let subjectQuestions :=
    match lookupSample sampleQuestions subj with
    | Some qs => qs
    | None => math_questions
    end in
  let filteredQuestions :=
    filter (fun q => String.eqb (sq_difficulty q) diff) subjectQuestions in
  let questionsToUse :=
    if (count <=? List.length filteredQuestions)%nat
    then firstn count filteredQuestions
    else firstn count subjectQuestions in
  map (fun q => mkCard (sq_question q) (sq_answer q) subj diff) questionsToUse.

(** [generateAIFlashcards]: [form] holds the notes (trimmed), the subject
    and the difficulty when the three form elements exist. *)
Definition generateAIFlashcards (form : option (string * string * string))
  (generateBtn : bool) (w : World) : World * option CardToast :=
  match form with
  | None => (w, Some FormElementsNotFound)
  | Some (notes, subj, diff) =>
      if String.eqb notes "" then (w, Some EnterNotesFirst)
      else if generateBtn then
        let flashcards := generateSampleCards subj diff 5 in
        (set_generatedCards flashcards w,
         Some (GeneratedFlashcards (JS.length flashcards)))
      else (w, None)
  end.

(** [addManualCard]: [form] holds the question and the answer (trimmed), the
    subject and the difficulty when the four form elements exist. *)
Definition addManualCard (form : option (string * string * string * string))
  (w : World) : World * CardToast :=
  match form with
  | None => (w, FormElementsNotFound)
  | Some (q, a, subj, diff) =>
      if String.eqb q "" || String.eqb a "" then (w, EnterQuestionAndAnswer)
      else (set_generatedCards (generatedCards w ++ [mkCard q a subj diff]) w,
            ManualFlashcardAdded)
  end.

(** The [reduce] of [saveAllCards]: a card whose difficulty is not a key of
    [XP_VALUES] turns the sum into [NaN], here [None]. *)
Definition totalXP (cs : list Card) : option Z :=
  fold_left (fun sum card =>
               match sum, XP_VALUES (difficulty card) with
               | Some s, Some v => Some (s + v)
               | _, _ => None
               end)
            cs (Some 0).

(** The checks [saveAllCards] makes when the button is clicked: the toast
    that stops it, if any. *)
Definition saveAllCards_check (saveBtn : bool) (w : World)
  : option CardToast :=
  if JS.length (generatedCards w) =? 0 then Some NoCardsToSave
  else if saveBtn then None
  else Some SaveButtonNotFound.

(** [saveAllCards] after its wait; [None] when the total is [NaN], which
    the experience of this model cannot hold. *)
Definition saveAllCards_resume (w : World) : option (World * CardToast) :=
  let w1 := set_savedCards (savedCards w ++ generatedCards w) w in
  match totalXP (generatedCards w1) with
  | None => None
  | Some total =>
      let w2 := awardXP total "Cards saved!" w1 in
      Some (set_generatedCards [] w2,
            SavedFlashcards (JS.length (generatedCards w2)))
  end.

Definition clearAllCards (w : World) : World * CardToast :=
  (set_generatedCards [] w, AllCardsCleared).

(** ** Todo list and timetable

    [todoItems] and [timetableItems] beside the globals of the session. *)

Record TodoItem := mkTodo {
  todo_id : Z;
  title : string;
  date : string;
  priority : string;
  todo_subject : string;
  description : string;
  completed : bool
}.

Record TimetableEntry := mkEntry {
  entry_id : Z;
  entry_subject : string;
  day : string;
  entry_startTime : string;
  entry_endTime : string
}.

Record App := mkApp {
  world : World;
  todoItems : list TodoItem;
  timetableItems : list TimetableEntry
}.

Inductive PlannerToast :=
| PlannerFormNotFound
| FillInTitleAndDate
| TodoAdded
| TodoDeleted
| SelectBothTimes
| EndMustBeAfterStart
| StudyTimeAdded.

(** [saveTodoItem]: [form] holds the title (trimmed) and the date when
    these two elements exist, and the priority, subject and description
    (trimmed) with their defaults filled in; [now] is [Date.now ()]. *)
Definition saveTodoItem (now : Z)
  (form : option (string * string * string * string * string)) (a : App)
  : App * PlannerToast :=
  match form with
  | None => (a, PlannerFormNotFound)
  | Some (ttl, dt, prio, subj, descr) =>
      if String.eqb ttl "" || String.eqb dt "" then (a, FillInTitleAndDate)
      else (mkApp (world a)
                  (todoItems a ++ [mkTodo now ttl dt prio subj descr false])
                  (timetableItems a),
            TodoAdded)
  end.

(** [todoItems.find (t => t.id === id)] followed by the flip of its
    [completed] flag: the first item with that id is the one changed. *)
Fixpoint flipFirst (id : Z) (items : list TodoItem)
  : option (bool * list TodoItem) :=
  match items with
  | [] => None
  | t :: rest =>
      if todo_id t =? id then
        Some (negb (completed t),
              mkTodo (todo_id t) (title t) (date t) (priority t)
                     (todo_subject t) (description t) (negb (completed t))
              :: rest)
      else
        match flipFirst id rest with
        | Some (c, rest') => Some (c, t :: rest')
        | None => None
        end
  end.

Definition toggleTodo (id : Z) (a : App) : App :=
  match flipFirst id (todoItems a) with
  | None => a
  | Some (nowCompleted, items) =>
      let w := if nowCompleted then awardXP 2 "Task completed!" (world a)
               else world a in
      mkApp w items (timetableItems a)
  end.

Definition deleteTodo (id : Z) (a : App) : App * PlannerToast :=
  (mkApp (world a)
         (filter (fun t => negb (todo_id t =? id)) (todoItems a))
         (timetableItems a),
   TodoDeleted).

(** [saveTimetableItem]: [form] holds the four values when the four
    elements exist; the times are compared as strings. *)
Definition saveTimetableItem (now : Z)
  (form : option (string * string * string * string)) (a : App)
  : App * PlannerToast :=
  match form with
  | None => (a, PlannerFormNotFound)
  | Some (subj, d, startT, endT) =>
      if String.eqb startT "" || String.eqb endT "" then (a, SelectBothTimes)
      else if String.leb endT startT then (a, EndMustBeAfterStart)
      else (mkApp (world a) (todoItems a)
                  (timetableItems a ++ [mkEntry now subj d startT endT]),
            StudyTimeAdded)
  end.

(** A time of day as a time input gives it: [HH:MM]. *)
Definition digit (n : nat) : string :=
  String (Ascii.ascii_of_nat (48 + n)) EmptyString.

Definition two_digits (n : nat) : string :=
  digit (n / 10) ++ digit (n mod 10).

Definition clock (h m : nat) : string := two_digits h ++ ":" ++ two_digits m.

(** Every entry of the timetable ends after it starts. *)
Definition timetable_inv (a : App) : Prop :=
  Forall (fun e => String.ltb (entry_startTime e) (entry_endTime e) = true)
         (timetableItems a).

(** What can be done to the planner. *)
Inductive PlannerInput :=
| SaveTodo (now : Z) (form : option (string * string * string * string * string))
| ToggleTodo (id : Z)
| DeleteTodo (id : Z)
| SaveTimetable (now : Z) (form : option (string * string * string * string)).

Definition plannerStep (i : PlannerInput) (a : App) : App :=
  match i with
  | SaveTodo now form => fst (saveTodoItem now form a)
  | ToggleTodo id => toggleTodo id a
  | DeleteTodo id => fst (deleteTodo id a)
  | SaveTimetable now form => fst (saveTimetableItem now form a)
  end.

Definition plannerRun (tr : list PlannerInput) (a : App) : App :=
  fold_left (fun acc i => plannerStep i acc) tr a.

(** ** Definitions used by the further statements *)

(** The statistics of [w'] are those of [w] or those after a positive
    award to [w]. *)
Definition awarded (w w' : World) : Prop :=
  userStats w' = userStats w
  \/ exists amount reason,
       0 < amount /\ userStats w' = userStats (awardXP amount reason w).

(** A card whose difficulty is a key of [XP_VALUES], and the sum of the
    values of a list of cards. *)
Definition known_difficulty (c : Card) : bool :=
  match XP_VALUES (difficulty c) with Some _ => true | None => false end.

Definition sumValues (cs : list Card) : Z :=
  fold_right (fun c s => xpValue c + s) 0 cs.

(** A form of [addManualCard] as the card it makes. *)
Definition manualCard (f : string * string * string * string) : Card :=
  let '(q, a, subj, diff) := f in mkCard q a subj diff.

(** A form with both a question and an answer. *)
Definition filled (f : string * string * string * string) : bool :=
  let '(q, a, _, _) := f in negb (String.eqb q "" || String.eqb a "").

(** One click on the add button per form, in order. *)
Definition addManualCards (forms : list (string * string * string * string))
  (w : World) : World :=
  fold_left (fun acc f => fst (addManualCard (Some f) acc)) forms w.

(** Two-digit numbers compare as strings the way they compare as numbers. *)
Definition two_digits_checked : bool :=
  forallb (fun a =>
             forallb (fun b =>
                        match String.compare (two_digits a) (two_digits b),
                              Nat.compare a b with
                        | Eq, Eq | Lt, Lt | Gt, Gt => true
                        | _, _ => false
                        end)
                     (seq 0 100))
          (seq 0 100).

(** * Properties *)

(** ** The event log *)

Lemma xpAwards_app (l1 l2 : list UiEvent) :
  xpAwards (l1 ++ l2) = xpAwards l1 ++ xpAwards l2.
Proof.
  induction l1 as [|e l1 IH]; simpl; [reflexivity|].
  destruct e; simpl; rewrite IH; reflexivity.
Qed.

Lemma levelUps_app (l1 l2 : list UiEvent) :
  levelUps (l1 ++ l2) = levelUps l1 ++ levelUps l2.
Proof.
  induction l1 as [|e l1 IH]; simpl; [reflexivity|].
  destruct e; simpl; rewrite IH; reflexivity.
Qed.

Lemma summaries_app (l1 l2 : list UiEvent) :
  summaries (l1 ++ l2) = summaries l1 ++ summaries l2.
Proof.
  induction l1 as [|e l1 IH]; simpl; [reflexivity|].
  destruct e as [m t| |]; simpl; try (rewrite IH; reflexivity).
  destruct m; simpl; rewrite IH; reflexivity.
Qed.

(** ** What [awardXP] writes *)

Section AwardXP.

Variables (amount : Z) (reason : string) (w : World).

Let recomputed := JS.floor_div (xp (userStats w) + amount) 100 + 1.

Lemma awardXP_xp : xp (userStats (awardXP amount reason w)) = xp (userStats w) + amount.
Proof.
  unfold awardXP; simpl.
  destruct (level (userStats w) <? _); [destruct (currentUser w)|]; reflexivity.
Qed.

Lemma awardXP_level :
  level (userStats (awardXP amount reason w)) =
  if level (userStats w) <? recomputed then recomputed else level (userStats w).
Proof.
  unfold awardXP, recomputed; simpl.
  destruct (level (userStats w) <? _); [destruct (currentUser w)|]; reflexivity.
Qed.

Lemma awardXP_events :
  events (awardXP amount reason w) =
  events w ++ (if level (userStats w) <? recomputed then [LevelUp recomputed]
               else []) ++ [XPGain amount reason].
Proof.
  unfold awardXP, recomputed; simpl.
  destruct (level (userStats w) <? _); [destruct (currentUser w)|]; simpl;
    rewrite <- ?app_assoc; reflexivity.
Qed.

Lemma awardXP_frame :
  studySession (awardXP amount reason w) = studySession w /\
  timeouts (awardXP amount reason w) = timeouts w /\
  intervals (awardXP amount reason w) = intervals w /\
  dom (awardXP amount reason w) = dom w /\
  savedCards (awardXP amount reason w) = savedCards w /\
  generatedCards (awardXP amount reason w) = generatedCards w.
Proof.
  unfold awardXP; simpl.
  destruct (level (userStats w) <? _); [destruct (currentUser w)|]; simpl;
    repeat split; reflexivity.
Qed.

Lemma awardXP_level_inv : level_inv w -> 0 <= amount -> level_inv (awardXP amount reason w).
Proof.
  unfold level_inv; intros Hinv Hpos.
  rewrite awardXP_level, awardXP_xp. fold recomputed.
  destruct (Z.ltb_spec (level (userStats w)) recomputed) as [Hlt|Hge];
    [reflexivity|].
  assert (Hmono : xp (userStats w) / 100 <= (xp (userStats w) + amount) / 100)
    by (apply Z.div_le_mono; lia).
  unfold recomputed, JS.floor_div in *. lia.
Qed.

End AwardXP.

Arguments awardXP : simpl never.

(** ** What [endStudySession] writes *)

Lemma sessionXP_formula (studied a duration : Z) :
  sessionXP studied a duration =
  2 * studied + (if 80 <=? a then 10 else 0) + (if 600 <=? duration then 5 else 0).
Proof.
  unfold sessionXP.
  destruct (80 <=? a), (600 <=? duration); lia.
Qed.

Section EndStudySession.

Variables (now : Z) (w : World).

Let ss := studySession w.
Let acc := accuracy (correctAnswers ss) (cardsStudied ss).
Let bonus := sessionXP (cardsStudied ss) acc (sessionDuration now ss).

Lemma endStudySession_session : studySession (endStudySession now w) = resetSession.
Proof. reflexivity. Qed.

Lemma endStudySession_timeouts : timeouts (endStudySession now w) = timeouts w.
Proof.
  unfold endStudySession; cbn.
  destruct (0 <? _); cbn; [|destruct (timer _); reflexivity].
  destruct (awardXP_frame (sessionXP (cardsStudied (studySession w))
              (accuracy (correctAnswers (studySession w)) (cardsStudied (studySession w)))
              (sessionDuration now (studySession w))) "Study session completed!"
              (match timer (studySession w) with
               | Some h => clearInterval h w
               | None => w
               end)) as (_ & Ht & _).
  rewrite Ht. destruct (timer _); reflexivity.
Qed.

Lemma endStudySession_xp :
  xp (userStats (endStudySession now w)) =
  xp (userStats w) + (if 0 <? bonus then bonus else 0).
Proof.
  unfold endStudySession; cbn. fold ss. fold acc. fold bonus.
  destruct (0 <? bonus); cbn.
  - rewrite awardXP_xp. destruct (timer ss); reflexivity.
  - destruct (timer ss); cbn; lia.
Qed.

Lemma endStudySession_events :
  events (endStudySession now w) =
  events w
  ++ (if 0 <? bonus then
        (if level (userStats w)
            <? (JS.floor_div (xp (userStats w) + bonus) 100 + 1)
         then [LevelUp (JS.floor_div (xp (userStats w) + bonus) 100 + 1)]
         else [])
        ++ [XPGain bonus "Study session completed!"]
      else [])
  ++ [Notification (SessionComplete (cardsStudied ss) acc bonus) success].
Proof.
  unfold endStudySession; cbn. fold ss. fold acc. fold bonus.
  destruct (0 <? bonus); cbn.
  - rewrite awardXP_events. rewrite <- !app_assoc.
    destruct (timer ss); reflexivity.
  - destruct (timer ss); reflexivity.
Qed.

Lemma sessionXP_nonneg_when_awarded : (0 <? bonus) = true -> 0 <= bonus.
Proof. intros H; apply Z.ltb_lt in H; lia. Qed.

Lemma endStudySession_level_inv : level_inv w -> level_inv (endStudySession now w).
Proof.
  intros Hinv.
  unfold endStudySession; cbn. fold ss. fold acc. fold bonus.
  destruct (0 <? bonus) eqn:Hb.
  - apply sessionXP_nonneg_when_awarded in Hb.
    assert (H1 : level_inv (match timer ss with
                            | Some h => clearInterval h w
                            | None => w
                            end)) by (destruct (timer ss); exact Hinv).
    apply (awardXP_level_inv bonus "Study session completed!") in H1;
      [exact H1 | exact Hb].
  - destruct (timer ss); exact Hinv.
Qed.

End EndStudySession.

Arguments endStudySession : simpl never.

(** ** The level invariant along the machine *)

Lemma level_inv_ext (w w' : World) :
  userStats w' = userStats w -> level_inv w -> level_inv w'.
Proof. unfold level_inv; intros ->; trivial. Qed.

Lemma xpValue_cases (c : Card) :
  xpValue c = 3 \/ xpValue c = 5 \/ xpValue c = 8.
Proof.
  unfold xpValue, XP_VALUES.
  destruct (String.eqb (difficulty c) "easy"); [left; reflexivity|].
  destruct (String.eqb (difficulty c) "medium"); [right; left; reflexivity|].
  destruct (String.eqb (difficulty c) "hard"); [right; right; reflexivity|].
  right; left; reflexivity.
Qed.

Lemma showCurrentCard_level_inv (now : Z) (w : World) :
  level_inv w -> level_inv (showCurrentCard now w).
Proof.
  intros H; unfold showCurrentCard; cbv zeta.
  destruct (Z.leb _ _); [apply endStudySession_level_inv|]; exact H.
Qed.

Lemma startStudySessionFrom_level_inv (table : SampleTable) (now : Z) (w : World) :
  level_inv w -> level_inv (startStudySessionFrom table now w).
Proof.
  intros H; unfold startStudySessionFrom; cbv zeta.
  set (studyCards := if JS.length (savedCards w ++ generatedCards w) =? 0
                     then fallbackCards table
                     else savedCards w ++ generatedCards w).
  destruct (JS.length studyCards =? 0); [exact H|].
  cbn.
  apply level_inv_ext
    with (w := showCurrentCard now
                 (set_studySession
                    (mkSession true (Some now) 0 0 0 studyCards
                               (Some (nextHandle w)) (Some 0))
                    (snd (setInterval w)))); [reflexivity|].
  apply showCurrentCard_level_inv. exact H.
Qed.

Lemma pauseStudySession_userStats (w : World) :
  userStats (pauseStudySession w) = userStats w.
Proof.
  unfold pauseStudySession.
  destruct (pauseBtn (dom w)) as [html|]; [|reflexivity].
  destruct (includes_Pause html), (timer (studySession w)); reflexivity.
Qed.

Lemma updateSessionTimer_userStats (now : Z) (w : World) :
  userStats (updateSessionTimer now w) = userStats w.
Proof.
  unfold updateSessionTimer.
  destruct (sessionTimer (dom w)); [|reflexivity].
  destruct (_ || _); reflexivity.
Qed.

Lemma answerCard_level_inv (isCorrect : bool) (w : World) :
  level_inv w -> level_inv (fst (answerCard isCorrect w)).
Proof.
  intros H; unfold answerCard; cbv zeta.
  destruct isCorrect; cbn.
  - destruct (JS.index _ _) as [card|]; cbn; [|exact H].
    assert (Haward : level_inv (awardXP (xpValue card) "Correct answer!"
              (set_studySession
                 (mkSession (active (studySession w)) (startTime (studySession w))
                    (currentCard (studySession w)) (cardsStudied (studySession w) + 1)
                    (correctAnswers (studySession w) + 1) (cards (studySession w))
                    (timer (studySession w)) (sessionTime (studySession w))) w))).
    { apply awardXP_level_inv; [exact H|].
      destruct (xpValue_cases card) as [E|[E|E]]; rewrite E; lia. }
    destruct (Z.leb _ _); exact Haward.
  - destruct (Z.leb _ _); exact H.
Qed.

Lemma step_level_inv (i : Input) (w : World) :
  level_inv w -> level_inv (step i w).
Proof.
  intros H; destruct i as [now| |now| |b|k now|h now]; cbn [step].
  - apply startStudySessionFrom_level_inv, H.
  - eapply level_inv_ext; [apply pauseStudySession_userStats|exact H].
  - apply endStudySession_level_inv, H.
  - exact H.
  - apply answerCard_level_inv, H.
  - destruct (nth_error (timeouts w) k) as [[cb d]|]; [|exact H].
    destruct cb; cbn [runCallback].
    + apply showCurrentCard_level_inv. exact H.
    + apply endStudySession_level_inv. exact H.
  - destruct (existsb _ _); [|exact H].
    eapply level_inv_ext; [apply updateSessionTimer_userStats|exact H].
Qed.

Lemma run_level_inv (tr : list Input) (w : World) :
  level_inv w -> level_inv (run tr w).
Proof.
  revert w; induction tr as [|i tr IH]; intros w H; [exact H|].
  apply IH, step_level_inv, H.
Qed.

Lemma simulateLogin_level_inv (name : string) (w : World) :
  level_inv (simulateLogin name w).
Proof. reflexivity. Qed.

Lemma initialWorld_level_inv : level_inv initialWorld.
Proof. reflexivity. Qed.

(** ** C1: the level is derived from the experience *)

(** C1.  From a state whose level is [floor (xp / 100) + 1], awarding a
    non-negative amount with [awardXP] leads to a state whose level is again
    [floor (xp / 100) + 1]; and so does every input of the session machine
    (start, pause, end, reveal, answer, a timeout callback, a timer tick). *)
Theorem level_formula_preserved (w : World) :
  level_inv w ->
  (forall amount reason,
      0 <= amount ->
      level (userStats (awardXP amount reason w))
      = JS.floor_div (xp (userStats (awardXP amount reason w))) 100 + 1)
  /\ (forall i : Input,
         level (userStats (step i w))
         = JS.floor_div (xp (userStats (step i w))) 100 + 1).
Proof.
  intros H; split.
  - intros amount reason Hpos. apply awardXP_level_inv; assumption.
  - intros i. apply step_level_inv; assumption.
Qed.

Lemma level_formula_preserved_witness :
  level_inv (simulateLogin "Steven" initialWorld)
  /\ level (userStats (awardXP 250 "Cards saved!"
                               (simulateLogin "Steven" initialWorld))) = 8
  /\ level (userStats (step (ClickAnswer true)
                            (simulateLogin "Steven" initialWorld))) = 5.
Proof.
  pose proof (level_formula_preserved (simulateLogin "Steven" initialWorld)
                (eq_refl : level_inv (simulateLogin "Steven" initialWorld)))
    as [Haward Hstep].
  split; [reflexivity|]. split.
  - rewrite (Haward 250 "Cards saved!" ltac:(lia)). reflexivity.
  - rewrite (Hstep (ClickAnswer true)). reflexivity.
Defined.

(** ** C9: one level-up toast per award *)

(** C9.  An award shows a level-up toast exactly when the level recomputed
    from the new experience exceeds the previous level, and then it shows
    one toast, carrying the recomputed level; an award of 250 XP to a fresh
    user crosses two thresholds and shows the single toast for level 3. *)
Theorem level_up_reported_once (amount : Z) (reason : string) (w : World) :
  let previous := level (userStats w) in
  let recomputed := JS.floor_div (xp (userStats w) + amount) 100 + 1 in
  levelUps (events (awardXP amount reason w))
  = levelUps (events w) ++ (if previous <? recomputed then [recomputed] else [])
  /\ level (userStats (awardXP amount reason w))
     = (if previous <? recomputed then recomputed else previous)
  /\ levelUps (events (awardXP 250 reason initialWorld)) = [3].
Proof.
  cbv zeta. split; [|split].
  - rewrite awardXP_events, !levelUps_app. cbn.
    rewrite app_nil_r.
    destruct (level (userStats w) <? _); reflexivity.
  - apply awardXP_level.
  - reflexivity.
Qed.

(** ** C5: the bonus at the end of a session *)

(** C5.  Ending a session computes a bonus of twice the cards studied, plus
    10 when the accuracy is at least 80, plus 5 when the duration is at least
    600 seconds; when the bonus is positive it is awarded by one XP award
    with the reason of a completed session, and otherwise nothing is
    awarded.  Five cards at accuracy 80 over 700 seconds give 25. *)
Theorem session_bonus (now : Z) (w : World) :
  let ss := studySession w in
  let acc := accuracy (correctAnswers ss) (cardsStudied ss) in
  let duration := sessionDuration now ss in
  let bonus := 2 * cardsStudied ss + (if 80 <=? acc then 10 else 0)
               + (if 600 <=? duration then 5 else 0) in
  xpAwards (events (endStudySession now w))
  = xpAwards (events w)
    ++ (if 0 <? bonus then [(bonus, "Study session completed!")] else [])
  /\ xp (userStats (endStudySession now w))
     = xp (userStats w) + (if 0 <? bonus then bonus else 0)
  /\ summaries (events (endStudySession now w))
     = summaries (events w) ++ [(cardsStudied ss, acc, bonus)]
  /\ sessionXP 5 80 700 = 25.
Proof.
  cbv zeta. rewrite <- sessionXP_formula.
  split; [|split; [|split]].
  - rewrite endStudySession_events, !xpAwards_app. cbn.
    rewrite app_nil_r.
    destruct (0 <? sessionXP _ _ _); [|reflexivity].
    rewrite xpAwards_app.
    destruct (level (userStats w) <? _); reflexivity.
  - apply endStudySession_xp.
  - rewrite endStudySession_events, !summaries_app. cbn.
    destruct (0 <? sessionXP _ _ _); [|reflexivity].
    rewrite summaries_app.
    destruct (level (userStats w) <? _); reflexivity.
  - reflexivity.
Qed.

(** ** C6: answering a card *)

(** On a current card.  When the session has a card at its position,
    answering it adds one to the cards studied and one to the position; a
    correct answer also adds one to the correct answers and awards
    [XP_VALUES[card.difficulty] || 5], which is 3 for an easy, 5 for a
    medium and 8 for a hard card, with the reason [Correct answer!]; an
    incorrect answer leaves the correct answers alone and awards nothing. *)
Lemma answerCard_on_current_card (isCorrect : bool) (w : World) (card : Card) :
  JS.index (cards (studySession w)) (currentCard (studySession w)) = Some card ->
  let ss := studySession w in
  let ss' := studySession (fst (answerCard isCorrect w)) in
  let w' := fst (answerCard isCorrect w) in
  let award := match XP_VALUES (difficulty card) with
               | Some v => v
               | None => 5
               end in
  snd (answerCard isCorrect w) = Returned
  /\ cardsStudied ss' = cardsStudied ss + 1
  /\ currentCard ss' = currentCard ss + 1
  /\ correctAnswers ss' = correctAnswers ss + (if isCorrect then 1 else 0)
  /\ xpAwards (events w')
     = xpAwards (events w)
       ++ (if isCorrect then [(award, "Correct answer!")] else [])
  /\ xp (userStats w') = xp (userStats w) + (if isCorrect then award else 0)
  /\ cards ss' = cards ss
  /\ (difficulty card = "easy" -> award = 3)
  /\ (difficulty card = "medium" -> award = 5)
  /\ (difficulty card = "hard" -> award = 8).
Proof.
  intros Hcard; cbv zeta.
  assert (Htable : (difficulty card = "easy" -> xpValue card = 3)
                   /\ (difficulty card = "medium" -> xpValue card = 5)
                   /\ (difficulty card = "hard" -> xpValue card = 8)).
  { unfold xpValue. repeat split; intros ->; reflexivity. }
  change (match XP_VALUES (difficulty card) with
          | Some v => v
          | None => 5
          end) with (xpValue card).
  unfold answerCard; cbv zeta.
  destruct isCorrect; cbn.
  - rewrite Hcard.
    set (w2 := set_studySession _ (set_studySession _ w)).
    destruct (awardXP_frame (xpValue card) "Correct answer!" w2)
      as (Hss & _).
    pose proof (awardXP_xp (xpValue card) "Correct answer!" w2) as Hxp.
    pose proof (awardXP_events (xpValue card) "Correct answer!" w2) as Hev.
    destruct (Z.leb _ _); cbn; rewrite Hss, Hxp, Hev; cbn;
      rewrite !xpAwards_app; cbn;
      (destruct (level (userStats w) <? _); cbn;
       repeat split; try reflexivity; try apply Htable; lia).
  - destruct (Z.leb _ _); cbn; rewrite app_nil_r;
      repeat split; try reflexivity; try apply Htable; lia.
Qed.

Example answerCard_on_a_hard_card :
  let w := startStudySession 1700000000000 (worldWithSaved 2 "hard") in
  xp (userStats (fst (answerCard true w))) = xp (userStats w) + 8
  /\ xpAwards (events (fst (answerCard true w))) = [(8, "Correct answer!")]
  /\ currentCard (studySession (fst (answerCard true w))) = 1.
Proof. vm_compute. repeat split; reflexivity. Qed.

(** With no card at the position, a correct answer counts one more card
    studied and one more correct answer and then raises: the position is
    not advanced, nothing is awarded and no callback is scheduled. *)
Lemma answerCard_without_card (w : World) :
  JS.index (cards (studySession w)) (currentCard (studySession w)) = None ->
  snd (answerCard true w) = ThrewTypeError
  /\ currentCard (studySession (fst (answerCard true w)))
     = currentCard (studySession w)
  /\ cardsStudied (studySession (fst (answerCard true w)))
     = cardsStudied (studySession w) + 1
  /\ correctAnswers (studySession (fst (answerCard true w)))
     = correctAnswers (studySession w) + 1
  /\ userStats (fst (answerCard true w)) = userStats w
  /\ events (fst (answerCard true w)) = events w
  /\ timeouts (fst (answerCard true w)) = timeouts w.
Proof.
  intros Hnone. unfold answerCard; cbv zeta. cbn.
  rewrite Hnone. cbn. repeat split; reflexivity.
Qed.

(** C6.  A session on one card is started and the card is answered.  Until
    the closing callback runs, one second later, the session is still
    active and its position is the length of the deck.  A correct answer
    given in that second counts a second card studied and a correct answer,
    then raises: the position stays where it was and nothing is awarded.
    An incorrect answer on the same page advances the position past the
    deck. *)
Theorem answer_after_last_card :
  let w := run [ClickStart 1700000000000; ClickReveal; ClickAnswer false]
               (worldWithSaved 1 "hard") in
  active (studySession w) = true
  /\ currentCard (studySession w) = JS.length (cards (studySession w))
  /\ snd (answerCard true w) = ThrewTypeError
  /\ currentCard (studySession (fst (answerCard true w)))
     = currentCard (studySession w)
  /\ cardsStudied (studySession (fst (answerCard true w))) = 2
  /\ correctAnswers (studySession (fst (answerCard true w))) = 1
  /\ xpAwards (events (fst (answerCard true w))) = []
  /\ xp (userStats (fst (answerCard true w))) = xp (userStats w)
  /\ currentCard (studySession (fst (answerCard false w))) = 2.
Proof. vm_compute. repeat split; reflexivity. Qed.

(** ** C4: the accuracy percentage *)

Lemma accuracy_nothing_studied (correct : Z) : accuracy correct 0 = 0.
Proof. reflexivity. Qed.

Lemma accuracy_three_of_four : accuracy 3 4 = 75.
Proof. vm_compute. reflexivity. Qed.

Lemma accuracy_agrees_below_40 : agree_upto 39 = true.
Proof. vm_compute. reflexivity. Qed.

(** C4.  A session of 40 cards with 23 correct answers, ended five minutes
    after it started, reports an accuracy of 57: the browser computes
    [(23 / 40) * 100] as 57.49999999999999, whereas 100 * 23 / 40 is 57.5,
    which rounds to 58. *)
Theorem accuracy_23_of_40 :
  summaries
    (events
       (run ([ClickStart 1700000000000]
             ++ repeat (ClickAnswer true) 23 ++ repeat (ClickAnswer false) 17
             ++ [ClickEnd 1700000300000])
            (worldWithSaved 40 "easy")))
  = [(40, 57, 80)]
  /\ accuracy 23 40 = 57
  /\ accuracy_spec 23 40 = 58.
Proof. vm_compute. repeat split; reflexivity. Qed.

(** ** C7: no cards to study *)

Lemma fallbackCards_nil : fallbackCards [] = [].
Proof. reflexivity. Qed.

(** With the table that ships, there always is a deck. *)
Lemma startStudySession_active (now : Z) (w : World) :
  active (studySession (startStudySession now w)) = true.
Proof.
  unfold startStudySession, startStudySessionFrom; cbv zeta.
  set (studyCards := if JS.length (savedCards w ++ generatedCards w) =? 0
                     then fallbackCards sampleQuestions
                     else savedCards w ++ generatedCards w).
  assert (Hlen : 0 < JS.length studyCards).
  { unfold studyCards.
    destruct (Z.eqb_spec (JS.length (savedCards w ++ generatedCards w)) 0)
      as [_|Hne]; [reflexivity|].
    unfold JS.length in *. lia. }
  destruct (Z.eqb_spec (JS.length studyCards) 0) as [E|_]; [lia|].
  cbn. unfold showCurrentCard; cbn.
  destruct (Z.leb_spec (JS.length studyCards) 0) as [Hle|_]; [lia|].
  reflexivity.
Qed.

(** C7.  When the saved and generated cards are empty and the sample table
    yields no card either, starting a session only shows the error toast:
    the session object, its counters, the running intervals, the pending
    callbacks and the user's statistics are what they were. *)
Theorem empty_deck_rejected (table : SampleTable) (now : Z) (w : World) :
  savedCards w ++ generatedCards w = [] ->
  fallbackCards table = [] ->
  let w' := startStudySessionFrom table now w in
  studySession w' = studySession w
  /\ intervals w' = intervals w
  /\ timeouts w' = timeouts w
  /\ userStats w' = userStats w
  /\ dom w' = dom w
  /\ events w' = events w ++ [Notification NoFlashcardsAvailable error].
Proof.
  intros Hcards Htable; cbv zeta.
  unfold startStudySessionFrom; cbv zeta.
  rewrite Hcards, Htable. cbn. repeat split; reflexivity.
Qed.

Lemma empty_deck_rejected_witness :
  studySession (startStudySessionFrom [] 1700000000000 initialWorld)
  = initialSession
  /\ intervals (startStudySessionFrom [] 1700000000000 initialWorld) = [].
Proof.
  destruct (empty_deck_rejected [] 1700000000000 initialWorld eq_refl eq_refl)
    as (Hss & Hint & _).
  split; [exact Hss | exact Hint].
Defined.

(** ** C10: the fallback deck *)

Lemma card_eqb_refl (c : Card) : card_eqb c c = true.
Proof. unfold card_eqb; rewrite !String.eqb_refl; reflexivity. Qed.

Lemma distinct_cards_NoDup (l : list Card) :
  distinct_cards l = true -> NoDup l.
Proof.
  induction l as [|c t IH]; intros H; [constructor|].
  cbn in H. apply andb_prop in H as [Hc Ht].
  constructor; [|apply IH, Ht].
  intros Hin.
  assert (Hex : existsb (card_eqb c) t = true)
    by (apply existsb_exists; exists c; split; [exact Hin|apply card_eqb_refl]).
  rewrite Hex in Hc. discriminate.
Qed.

(** C10.  With no saved and no generated card, the deck of the session that
    starts is the sample table flattened category by category, math first,
    then english, spanish, german, science and history, every category in
    the order of its entries; it does not depend on the clock or on anything
    else of the page, and no card occurs in it twice. *)
Theorem fallback_deck (now : Z) (w : World) :
  savedCards w = [] ->
  generatedCards w = [] ->
  let deck := cards (studySession (startStudySession now w)) in
  deck = map (with_subject "math") math_questions
         ++ map (with_subject "english") english_questions
         ++ map (with_subject "spanish") spanish_questions
         ++ map (with_subject "german") german_questions
         ++ map (with_subject "science") science_questions
         ++ map (with_subject "history") history_questions
  /\ NoDup deck
  /\ List.length deck = 18%nat
  /\ currentCard (studySession (startStudySession now w)) = 0.
Proof.
  intros Hsaved Hgen; cbv zeta.
  assert (Hdeck : cards (studySession (startStudySession now w))
                  = fallbackCards sampleQuestions).
  { unfold startStudySession, startStudySessionFrom; cbv zeta.
    rewrite Hsaved, Hgen. reflexivity. }
  assert (Hpos : currentCard (studySession (startStudySession now w)) = 0).
  { unfold startStudySession, startStudySessionFrom; cbv zeta.
    rewrite Hsaved, Hgen. reflexivity. }
  rewrite Hdeck. repeat split.
  - apply distinct_cards_NoDup. vm_compute. reflexivity.
  - exact Hpos.
Qed.

Lemma fallback_deck_witness :
  map question
      (firstn 4 (cards (studySession
                          (startStudySession 1700000000000 initialWorld))))
  = [ "What is the Pythagorean theorem?"; "What is the quadratic formula?";
      "What is 2 + 2?"; "What is a metaphor?" ].
Proof.
  rewrite (proj1 (fallback_deck 1700000000000 initialWorld eq_refl eq_refl)).
  reflexivity.
Defined.

(** ** C3: the session closes itself after the last answer *)

Lemma endStudySession_log (now : Z) (w : World) :
  exists tail,
    events (endStudySession now w) = events w ++ tail
    /\ exists a x, summaries tail = [(cardsStudied (studySession w), a, x)].
Proof.
  rewrite endStudySession_events.
  eexists; split; [reflexivity|].
  rewrite summaries_app. cbn.
  destruct (0 <? sessionXP _ _ _); cbn; [|eauto].
  rewrite summaries_app.
  destruct (level (userStats w) <? _); cbn; eauto.
Qed.

Lemma answerCard_session (isCorrect : bool) (w : World) (card : Card) :
  let ss := studySession w in
  JS.index (cards ss) (currentCard ss) = Some card ->
  studySession (fst (answerCard isCorrect w))
  = mkSession (active ss) (startTime ss) (currentCard ss + 1)
              (cardsStudied ss + 1)
              (if isCorrect then correctAnswers ss + 1 else correctAnswers ss)
              (cards ss) (timer ss) (sessionTime ss)
  /\ timeouts (fst (answerCard isCorrect w))
     = timeouts w
       ++ [if JS.length (cards ss) <=? currentCard ss + 1
           then (CbEndStudySession, 1000) else (CbShowCurrentCard, 500)]
  /\ exists tail,
       events (fst (answerCard isCorrect w)) = events w ++ tail
       /\ summaries tail = [].
Proof.
  cbv zeta; intros Hcard.
  unfold answerCard; cbv zeta.
  destruct isCorrect; cbn.
  - rewrite Hcard.
    set (w2 := set_studySession _ (set_studySession _ w)).
    destruct (awardXP_frame (xpValue card) "Correct answer!" w2)
      as (Hss & Hto & _).
    pose proof (awardXP_events (xpValue card) "Correct answer!" w2) as Hev.
    rewrite !Hss. cbn.
    destruct (Z.leb _ _); cbn; rewrite ?Hss, Hto, Hev; cbn;
      (repeat split; try reflexivity; eexists; split; [reflexivity|];
       rewrite summaries_app;
       destruct (level (userStats w) <? _); reflexivity).
  - destruct (Z.leb _ _); cbn;
      (repeat split; try reflexivity; exists []; split;
       [rewrite app_nil_r; reflexivity | reflexivity]).
Qed.

Lemma updateSessionTimer_frame (now : Z) (w : World) :
  studySession (updateSessionTimer now w) = studySession w
  /\ timeouts (updateSessionTimer now w) = timeouts w
  /\ events (updateSessionTimer now w) = events w.
Proof.
  unfold updateSessionTimer.
  destruct (sessionTimer (dom w)); [|repeat split; reflexivity].
  destruct (_ || _); repeat split; reflexivity.
Qed.

Lemma Forall_remove_nth {A : Type} (P : A -> Prop) (k : nat) (l : list A) :
  Forall P l -> Forall P (remove_nth k l).
Proof.
  revert k; induction l as [|x l IH]; intros k H; [destruct k; exact H|].
  inversion H as [|? ? Hx Hl]; subst.
  destruct k; cbn; [exact Hl|constructor; [exact Hx|apply IH, Hl]].
Qed.

Lemma nth_error_index {A : Type} (l : list A) (k : nat) :
  (k < List.length l)%nat -> exists x, JS.index l (Z.of_nat k) = Some x.
Proof.
  intros Hk. unfold JS.index.
  destruct (Z.ltb_spec (Z.of_nat k) 0) as [Hneg|_]; [lia|].
  rewrite Nat2Z.id.
  destruct (nth_error l k) as [x|] eqn:E; [eauto|].
  apply nth_error_None in E. lia.
Qed.

(** Closes a goal that compares a position with the length of the deck. *)
Ltac deck_bounds := unfold JS.length in *; lia.

Section SessionPlay.

Variables (deck : list Card) (ev0 : list UiEvent).

Lemma Running_other (k : nat) (i : Input) (w : World) :
  Running deck ev0 k w -> session_input i = true -> is_answer i = false ->
  Running deck ev0 k (step i w).
Proof.
  intros (Hc & Hp & Hs & Hk & Hto & Hev) Hi Ha.
  destruct i as [now| |now| |b|j now|h now]; try discriminate; cbn [step].
  - repeat split; assumption.
  - destruct (nth_error (timeouts w) j) as [[cb d]|] eqn:E;
      [|repeat split; assumption].
    assert (Hcb : cb = CbShowCurrentCard).
    { apply nth_error_In in E.
      rewrite Forall_forall in Hto. exact (Hto _ E). }
    subst cb; cbn [runCallback]. unfold showCurrentCard; cbn.
    rewrite Hc, Hp.
    destruct (Z.leb_spec (JS.length deck) (Z.of_nat k)) as [Hle|_];
      [deck_bounds|].
    repeat split; cbn; try assumption.
    apply Forall_remove_nth, Hto.
  - destruct (existsb _ _); [|repeat split; assumption].
    destruct (updateSessionTimer_frame now w) as (E1 & E2 & E3).
    unfold Running. rewrite E1, E2, E3. repeat split; assumption.
Qed.

Lemma Running_answer (k : nat) (b : bool) (w : World) :
  Running deck ev0 k w ->
  (S k < List.length deck)%nat
  /\ Running deck ev0 (S k) (step (ClickAnswer b) w)
  \/ S k = List.length deck /\ Closing deck ev0 (step (ClickAnswer b) w).
Proof.
  intros (Hc & Hp & Hs & Hk & Hto & evs & Hev & Hsum).
  destruct (nth_error_index deck k Hk) as [card Hcard].
  rewrite <- Hc, <- Hp in Hcard.
  destruct (answerCard_session b w card Hcard)
    as (Hss & Htm & tail & Htail & Hnone).
  cbn [step].
  assert (Hlog : exists evs', events (fst (answerCard b w)) = ev0 ++ evs'
                              /\ summaries evs' = []).
  { exists (evs ++ tail). rewrite Htail, Hev, app_assoc. split; [reflexivity|].
    rewrite summaries_app, Hsum, Hnone. reflexivity. }
  rewrite Hc, Hp in Htm.
  destruct (Nat.eq_dec (S k) (List.length deck)) as [Hlast|Hmore].
  - right. split; [exact Hlast|].
    unfold Closing. rewrite Hss, Htm; cbn. rewrite Hc, Hp, Hs.
    repeat split; try lia; try assumption.
    intros Hnil. apply app_eq_nil in Hnil as [_ Hnil]. discriminate.
  - left. split; [lia|].
    unfold Running. rewrite Hss, Htm; cbn. rewrite Hc, Hp, Hs.
    repeat split; try lia; try assumption.
    apply Forall_app; split; [exact Hto|].
    constructor; [|constructor].
    destruct (Z.leb_spec (JS.length deck) (Z.of_nat k + 1)) as [Hle|_];
      [deck_bounds|reflexivity].
Qed.

Lemma Closing_fires (j : nat) (now : Z) (cb : Callback) (d : Z) (w : World) :
  Closing deck ev0 w -> nth_error (timeouts w) j = Some (cb, d) ->
  Ended deck ev0 (step (TimeoutFires j now) w)
  /\ timeouts (step (TimeoutFires j now) w) = remove_nth j (timeouts w).
Proof.
  intros (Hc & Hp & Hs & Hto & evs & Hev & Hsum) E.
  cbn [step]. rewrite E.
  set (w1 := set_timeouts (remove_nth j (timeouts w)) w).
  assert (Hrun : runCallback cb now w1 = endStudySession now w1).
  { destruct cb; cbn [runCallback]; [|reflexivity].
    unfold showCurrentCard; cbn. rewrite Hc, Hp.
    destruct (Z.leb_spec (JS.length deck) (Z.of_nat (List.length deck))) as [_|Hlt];
      [reflexivity|deck_bounds]. }
  rewrite Hrun. split; [|apply endStudySession_timeouts].
  split; [apply endStudySession_session|].
  destruct (endStudySession_log now w1) as (tail & Htail & a & x & Hone).
  exists (evs ++ tail), a, x, [].
  rewrite Htail. cbn. rewrite Hev, app_assoc. split; [reflexivity|].
  rewrite summaries_app, Hsum, Hone. cbn. rewrite Hs. reflexivity.
Qed.

Lemma Ended_fires (j : nat) (now : Z) (cb : Callback) (d : Z) (w : World) :
  Ended deck ev0 w -> nth_error (timeouts w) j = Some (cb, d) ->
  Ended deck ev0 (step (TimeoutFires j now) w)
  /\ timeouts (step (TimeoutFires j now) w) = remove_nth j (timeouts w).
Proof.
  intros (Hss & evs & a & x & rest & Hev & Hsum) E.
  cbn [step]. rewrite E.
  set (w1 := set_timeouts (remove_nth j (timeouts w)) w).
  assert (Hrun : runCallback cb now w1 = endStudySession now w1).
  { destruct cb; cbn [runCallback]; [|reflexivity].
    unfold showCurrentCard; cbn. rewrite Hss. reflexivity. }
  rewrite Hrun. split; [|apply endStudySession_timeouts].
  split; [apply endStudySession_session|].
  destruct (endStudySession_log now w1) as (tail & Htail & a' & x' & Hone).
  exists (evs ++ tail), a, x, (rest ++ summaries tail).
  rewrite Htail. cbn. rewrite Hev, app_assoc. split; [reflexivity|].
  rewrite summaries_app, Hsum. reflexivity.
Qed.

Lemma Closed_other (i : Input) (w : World) :
  Closing deck ev0 w \/ Ended deck ev0 w ->
  session_input i = true -> is_answer i = false ->
  Closing deck ev0 (step i w) \/ Ended deck ev0 (step i w).
Proof.
  intros Hw Hi Ha.
  destruct i as [now| |now| |b|j now|h now]; try discriminate.
  - exact Hw.
  - destruct (nth_error (timeouts w) j) as [[cb d]|] eqn:E.
    + right. destruct Hw as [Hw|Hw].
      * apply (Closing_fires j now cb d w Hw E).
      * apply (Ended_fires j now cb d w Hw E).
    + cbn [step]. rewrite E. exact Hw.
  - cbn [step]. destruct (existsb _ _); [|exact Hw].
    destruct (updateSessionTimer_frame now w) as (E1 & E2 & E3).
    unfold Closing, Ended. rewrite E1, E2, E3. exact Hw.
Qed.

Lemma run_closed (tr : list Input) (w : World) :
  Closing deck ev0 w \/ Ended deck ev0 w ->
  forallb session_input tr = true -> count_answers tr = 0%nat ->
  Closing deck ev0 (run tr w) \/ Ended deck ev0 (run tr w).
Proof.
  revert w; induction tr as [|i tr IH]; intros w Hw Hall Hcount; [exact Hw|].
  cbn in Hall. apply andb_prop in Hall as [Hi Hall].
  unfold count_answers in Hcount; cbn in Hcount.
  destruct (is_answer i) eqn:Ha; [discriminate|].
  apply IH; [apply Closed_other; assumption|exact Hall|exact Hcount].
Qed.

Lemma run_running (tr : list Input) (k : nat) (w : World) :
  Running deck ev0 k w ->
  forallb session_input tr = true -> count_answers tr = (List.length deck - k)%nat ->
  Closing deck ev0 (run tr w) \/ Ended deck ev0 (run tr w).
Proof.
  revert k w; induction tr as [|i tr IH]; intros k w Hw Hall Hcount.
  - destruct Hw as (_ & _ & _ & Hk & _). cbn in Hcount. lia.
  - cbn in Hall. apply andb_prop in Hall as [Hi Hall].
    unfold count_answers in Hcount; cbn in Hcount.
    destruct (is_answer i) eqn:Ha.
    + destruct i; try discriminate.
      cbn in Hcount.
      destruct (Running_answer k isCorrect w Hw) as [[Hlt Hnext]|[Hlast Hnext]].
      * apply (IH (S k)); [exact Hnext|exact Hall|].
        unfold count_answers. lia.
      * change (run (ClickAnswer isCorrect :: tr) w)
          with (run tr (step (ClickAnswer isCorrect) w)).
        apply run_closed; [left; exact Hnext|exact Hall|].
        unfold count_answers. lia.
    + apply (IH k); [apply Running_other; assumption|exact Hall|exact Hcount].
Qed.

Lemma drain_ended (now : Z) (m : nat) (w : World) :
  List.length (timeouts w) = m -> Ended deck ev0 w ->
  Ended deck ev0 (run (repeat (TimeoutFires 0 now) m) w)
  /\ timeouts (run (repeat (TimeoutFires 0 now) m) w) = [].
Proof.
  revert w; induction m as [|m IH]; intros w Hlen Hw.
  - split; [exact Hw|]. cbn [repeat run fold_left].
    destruct (timeouts w); [reflexivity|discriminate].
  - destruct (timeouts w) as [|[cb d] ts] eqn:E; [discriminate|].
    destruct (Ended_fires 0 now cb d w Hw) as [Hnext Hts];
      [rewrite E; reflexivity|].
    cbn [repeat run fold_left]. apply IH; [|exact Hnext].
    rewrite Hts, E. cbn in *. lia.
Qed.

Lemma drain_closed (now : Z) (w : World) :
  Closing deck ev0 w \/ Ended deck ev0 w ->
  Ended deck ev0 (drain now w) /\ timeouts (drain now w) = [].
Proof.
  intros [Hw|Hw]; unfold drain.
  - destruct (timeouts w) as [|[cb d] ts] eqn:E;
      [destruct Hw as (_ & _ & _ & Hne & _); contradiction|].
    destruct (Closing_fires 0 now cb d w Hw) as [Hnext Hts];
      [rewrite E; reflexivity|].
    cbn [List.length repeat run fold_left]. apply drain_ended; [|exact Hnext].
    rewrite Hts, E. reflexivity.
  - apply drain_ended; [reflexivity|exact Hw].
Qed.

End SessionPlay.

Lemma start_running (now : Z) (w0 : World) :
  savedCards w0 ++ generatedCards w0 <> [] ->
  timeouts w0 = [] ->
  Running (savedCards w0 ++ generatedCards w0)
          (events (startStudySession now w0)) 0 (startStudySession now w0).
Proof.
  intros Hdeck Hto.
  unfold startStudySession, startStudySessionFrom; cbv zeta.
  set (deck := savedCards w0 ++ generatedCards w0) in *.
  assert (Hlen : 0 < JS.length deck).
  { unfold JS.length. destruct deck; [contradiction|cbn; lia]. }
  destruct (Z.eqb_spec (JS.length deck) 0) as [E|_]; [lia|].
  destruct (Z.eqb_spec (JS.length deck) 0) as [E|_]; [lia|].
  cbn. unfold showCurrentCard; cbn.
  destruct (Z.leb_spec (JS.length deck) 0) as [Hle|_]; [lia|].
  unfold Running; cbn. rewrite Hto.
  repeat split; try reflexivity.
  - unfold JS.length in Hlen. lia.
  - constructor.
  - exists []. rewrite app_nil_r. split; reflexivity.
Qed.

(** C3.  Start a session on a deck of n >= 1 cards with no callback left
    over from before.  Then let exactly n answers be given, correct or not,
    freely interleaved with reveals, ticks of the timer and pending
    callbacks run at any moment, and let the browser run the callbacks still
    pending; no click on the end button occurs.  The session object is then
    the reset one, nothing is pending, and the first completion toast since
    the start reports n cards studied. *)
Theorem session_closes_itself (now nowf : Z) (w0 : World) (tr : list Input) :
  let deck := savedCards w0 ++ generatedCards w0 in
  deck <> [] ->
  timeouts w0 = [] ->
  forallb session_input tr = true ->
  count_answers tr = List.length deck ->
  let started := startStudySession now w0 in
  let w := drain nowf (run tr started) in
  studySession w = resetSession
  /\ active (studySession w) = false
  /\ timeouts w = []
  /\ exists evs a x rest,
       events w = events started ++ evs
       /\ summaries evs = (JS.length deck, a, x) :: rest.
Proof.
  cbv zeta; intros Hdeck Hto Hall Hcount.
  pose proof (start_running now w0 Hdeck Hto) as Hstart.
  assert (Hplayed := run_running _ _ tr 0 _ Hstart Hall).
  rewrite Nat.sub_0_r in Hplayed. specialize (Hplayed Hcount).
  destruct (drain_closed _ _ nowf _ Hplayed) as [[Hss Hlog] Hnone].
  split; [exact Hss|]. split; [rewrite Hss; reflexivity|].
  split; [exact Hnone|exact Hlog].
Qed.

Lemma session_closes_itself_witness :
  let w := drain 1700000031000
             (run [ClickReveal; ClickAnswer true; TimeoutFires 0 1700000010500;
                   ClickAnswer false; ClickAnswer true]
                  (startStudySession 1700000000000 (worldWithSaved 3 "hard"))) in
  studySession w = resetSession
  /\ active (studySession w) = false
  /\ timeouts w = []
  /\ exists evs a x rest,
       events w
       = events (startStudySession 1700000000000 (worldWithSaved 3 "hard"))
         ++ evs
       /\ summaries evs = (3, a, x) :: rest.
Proof.
  exact (session_closes_itself 1700000000000 1700000031000
           (worldWithSaved 3 "hard")
           [ClickReveal; ClickAnswer true; TimeoutFires 0 1700000010500;
            ClickAnswer false; ClickAnswer true]
           ltac:(discriminate) eq_refl eq_refl eq_refl).
Defined.

(** In the expected flow, every card shown before it is answered, the
    session ends with exactly one completion toast. *)
Example three_cards_one_summary :
  summaries
    (events
       (run [ClickStart 1700000000000;
             ClickReveal; ClickAnswer true; TimeoutFires 0 1700000010500;
             ClickReveal; ClickAnswer false; TimeoutFires 0 1700000020500;
             ClickReveal; ClickAnswer true; TimeoutFires 0 1700000031000]
            (worldWithSaved 3 "hard")))
  = [(3, 67, 6)].
Proof. vm_compute. reflexivity. Qed.

(** ** C2: pausing and the session clock *)

Lemma pauseStudySession_startTime (w : World) :
  startTime (studySession (pauseStudySession w)) = startTime (studySession w).
Proof.
  unfold pauseStudySession.
  destruct (pauseBtn (dom w)) as [html|]; [|reflexivity].
  destruct (includes_Pause html), (timer (studySession w)); reflexivity.
Qed.

(** The duration that [endStudySession] computes is the wall-clock time
    since the start, however often the session was paused. *)
Lemma sessionDuration_ignores_pauses (now : Z) (k : nat) (w : World) :
  sessionDuration now (studySession (run (repeat ClickPause k) w))
  = sessionDuration now (studySession w).
Proof.
  revert w; induction k as [|k IH]; intros w; [reflexivity|].
  cbn [repeat run fold_left]. fold (run (repeat ClickPause k)).
  rewrite IH. unfold sessionDuration. cbn [step].
  rewrite pauseStudySession_startTime. reflexivity.
Qed.

(** C2.  A session on one card is started, paused after 10 seconds, resumed
    10 minutes later and ended after 10 more seconds.  While paused the
    label stays at 00:10; the first tick after the resume shows 10:11; the
    duration at the end is 620 seconds, and the bonus for ten minutes of
    study is awarded for 20 seconds of it. *)
Theorem paused_time_is_counted :
  let t0 := 1700000000000 in
  let studying := run [ClickStart t0; IntervalTick 1 (t0 + 10000); ClickPause]
                      (worldWithSaved 1 "easy") in
  let paused := run [IntervalTick 1 (t0 + 300000)] studying in
  let resumed := run [ClickPause; IntervalTick 2 (t0 + 611000)] paused in
  let ended := run [ClickEnd (t0 + 620000)] resumed in
  sessionTimer (dom studying) = Some (0, 10)
  /\ sessionTimer (dom paused) = Some (0, 10)
  /\ sessionTimer (dom resumed) = Some (10, 11)
  /\ sessionDuration (t0 + 620000) (studySession resumed) = 620
  /\ summaries (events ended) = [(0, 0, 5)]
  /\ xpAwards (events ended) = [(5, "Study session completed!")].
Proof. vm_compute. repeat split; reflexivity. Qed.

(** ** C8: ending a session that is not running *)

(** On the reset session object [endStudySession] measures the time since
    the epoch, so the ten-minute bonus is always due. *)
Lemma endStudySession_idle (now : Z) (w : World) :
  studySession w = resetSession -> 600000 <= now ->
  xp (userStats (endStudySession now w)) = xp (userStats w) + 5
  /\ exists tail, events (endStudySession now w) = events w ++ tail
                  /\ summaries tail = [(0, 0, 5)].
Proof.
  intros Hss Hnow.
  assert (Hbonus : sessionXP (cardsStudied (studySession w))
                     (accuracy (correctAnswers (studySession w))
                               (cardsStudied (studySession w)))
                     (sessionDuration now (studySession w)) = 5).
  { rewrite Hss. unfold sessionDuration, JS.floor_div; cbn.
    rewrite Z.sub_0_r.
    assert (Hd : 600 <= now / 1000)
      by (apply Z.div_le_lower_bound; lia).
    unfold sessionXP; cbn.
    destruct (Z.leb_spec 600 (now / 1000)); [reflexivity|lia]. }
  split.
  - rewrite endStudySession_xp, Hbonus. reflexivity.
  - rewrite endStudySession_events, Hbonus. cbn.
    eexists; split; [reflexivity|].
    rewrite summaries_app, Hss.
    destruct (level (userStats w) <? _); reflexivity.
Qed.

(** C8.  One card is answered and the end button is clicked before the
    closing callback, scheduled by the answer, comes due.  The click closes
    the session (1 card, 2 XP); the callback then runs [endStudySession] on
    the reset session, awards 5 XP more and shows a second completion toast
    for 0 cards.  Likewise two clicks on the pause button of a page with no
    session leave an interval running and its handle in the session
    object, and a correct answer given after the last card, before the
    closing callback, counts a second card studied and then raises. *)
Theorem end_while_idle_awards_xp :
  let t0 := 1700000000000 in
  let closed := run [ClickStart t0; ClickReveal; ClickAnswer false;
                     ClickEnd (t0 + 5500)] (worldWithSaved 1 "easy") in
  let after := step (TimeoutFires 0 (t0 + 6000)) closed in
  let toggled := run [ClickPause; ClickPause] initialWorld in
  let exhausted := run [ClickStart t0; ClickReveal; ClickAnswer false]
                       (worldWithSaved 1 "easy") in
  studySession closed = resetSession
  /\ xp (userStats closed) = 2
  /\ xp (userStats after) = 7
  /\ summaries (events after) = [(1, 0, 2); (0, 0, 5)]
  /\ xp (userStats (endStudySession t0 initialWorld)) = 5
  /\ timer (studySession toggled) = Some 1%positive
  /\ intervals toggled = [1%positive]
  /\ snd (answerCard true exhausted) = ThrewTypeError
  /\ cardsStudied (studySession (fst (answerCard true exhausted))) = 2.
Proof. vm_compute. repeat split; reflexivity. Qed.

(** * Further properties of the session engine *)

(** ** What the operations do to the user's statistics *)

Lemma awardXP_userStats_frame (amount : Z) (reason : string) (w w' : World) :
  userStats w' = userStats w -> savedCards w' = savedCards w ->
  generatedCards w' = generatedCards w ->
  userStats (awardXP amount reason w') = userStats (awardXP amount reason w).
Proof.
  intros Hs Hsaved Hgen. unfold awardXP; cbn. rewrite Hs, Hsaved, Hgen.
  destruct (level (userStats w) <? _); [|reflexivity].
  destruct (currentUser w'), (currentUser w); reflexivity.
Qed.

Lemma endStudySession_userStats (now : Z) (w : World) :
  userStats (endStudySession now w)
  = if 0 <? sessionXP (cardsStudied (studySession w))
                      (accuracy (correctAnswers (studySession w))
                                (cardsStudied (studySession w)))
                      (sessionDuration now (studySession w))
    then userStats
           (awardXP (sessionXP (cardsStudied (studySession w))
                       (accuracy (correctAnswers (studySession w))
                                 (cardsStudied (studySession w)))
                       (sessionDuration now (studySession w)))
                    "Study session completed!" w)
    else userStats w.
Proof.
  unfold endStudySession; cbn.
  destruct (0 <? sessionXP _ _ _); cbn.
  - apply awardXP_userStats_frame; destruct (timer (studySession w)); reflexivity.
  - destruct (timer (studySession w)); reflexivity.
Qed.

Lemma answerCard_userStats (isCorrect : bool) (w : World) :
  userStats (fst (answerCard isCorrect w))
  = match (if isCorrect
           then JS.index (cards (studySession w)) (currentCard (studySession w))
           else None) with
    | Some card => userStats (awardXP (xpValue card) "Correct answer!" w)
    | None => userStats w
    end.
Proof.
  unfold answerCard; cbv zeta.
  destruct isCorrect; cbn.
  - destruct (JS.index _ _) as [card|]; cbn; [|reflexivity].
    set (w2 := set_studySession _ (set_studySession _ w)).
    assert (E : userStats (awardXP (xpValue card) "Correct answer!" w2)
                = userStats (awardXP (xpValue card) "Correct answer!" w))
      by (apply awardXP_userStats_frame; reflexivity).
    destruct (Z.leb _ _); cbn; exact E.
  - destruct (Z.leb _ _); reflexivity.
Qed.

Lemma xpValue_pos (c : Card) : 0 < xpValue c.
Proof. destruct (xpValue_cases c) as [E|[E|E]]; rewrite E; lia. Qed.

Lemma endStudySession_awarded (now : Z) (w : World) :
  awarded w (endStudySession now w).
Proof.
  unfold awarded. rewrite endStudySession_userStats.
  destruct (Z.ltb_spec 0 (sessionXP (cardsStudied (studySession w))
                            (accuracy (correctAnswers (studySession w))
                                      (cardsStudied (studySession w)))
                            (sessionDuration now (studySession w))));
    [right; eauto|left; reflexivity].
Qed.

Lemma step_awarded (i : Input) (w : World) : awarded w (step i w).
Proof.
  destruct i as [now| |now| |b|k now|h now]; cbn [step].
  - unfold startStudySession, startStudySessionFrom; cbv zeta.
    set (studyCards := if JS.length (savedCards w ++ generatedCards w) =? 0
                       then fallbackCards sampleQuestions
                       else savedCards w ++ generatedCards w).
    destruct (JS.length studyCards =? 0); [left; reflexivity|].
    cbn. unfold showCurrentCard; cbn.
    destruct (Z.leb _ _); [|left; reflexivity].
    set (w3 := set_studySession _ _).
    destruct (endStudySession_awarded now w3) as [E|(a & r & Ha & E)].
    + left. cbn. exact E.
    + right. exists a, r. split; [exact Ha|]. cbn. rewrite E.
      apply awardXP_userStats_frame; reflexivity.
  - left. apply pauseStudySession_userStats.
  - apply endStudySession_awarded.
  - left. reflexivity.
  - unfold awarded. rewrite answerCard_userStats.
    destruct b; [|left; reflexivity].
    destruct (JS.index _ _) as [card|]; [|left; reflexivity].
    right. exists (xpValue card), "Correct answer!".
    split; [apply xpValue_pos|reflexivity].
  - destruct (nth_error (timeouts w) k) as [[cb d]|]; [|left; reflexivity].
    set (w1 := set_timeouts _ w).
    assert (Hend : awarded w (endStudySession now w1)).
    { destruct (endStudySession_awarded now w1) as [E|(a & r & Ha & E)].
      - left. exact E.
      - right. exists a, r. split; [exact Ha|]. rewrite E.
        apply awardXP_userStats_frame; reflexivity. }
    destruct cb; cbn [runCallback]; [|exact Hend].
    unfold showCurrentCard; cbv zeta.
    destruct (Z.leb _ _); [exact Hend|left; reflexivity].
  - destruct (existsb _ _); [|left; reflexivity].
    left. apply updateSessionTimer_userStats.
Qed.

Lemma awarded_grows (w w' : World) :
  awarded w w' ->
  xp (userStats w) <= xp (userStats w')
  /\ level (userStats w) <= level (userStats w').
Proof.
  intros [E|(a & r & Ha & E)]; rewrite E; [lia|].
  rewrite awardXP_xp, awardXP_level.
  split; [lia|].
  destruct (Z.ltb_spec (level (userStats w))
              (JS.floor_div (xp (userStats w) + a) 100 + 1)); lia.
Qed.

(** X1.  Whatever is clicked and whichever callbacks and ticks run, in any
    order and any number, the experience and the level at the end are at
    least what they were at the beginning. *)
Theorem xp_and_level_never_decrease (tr : list Input) (w : World) :
  xp (userStats w) <= xp (userStats (run tr w))
  /\ level (userStats w) <= level (userStats (run tr w)).
Proof.
  revert w; induction tr as [|i tr IH]; intros w; [cbn; lia|].
  change (run (i :: tr) w) with (run tr (step i w)).
  destruct (awarded_grows w (step i w) (step_awarded i w)) as [Hx Hl].
  destruct (IH (step i w)) as [Hx' Hl']. lia.
Qed.

(** ** The counters of the session *)

Lemma counters_inv_reset (w : World) :
  studySession w = resetSession -> counters_inv w.
Proof. intros E; unfold counters_inv; rewrite E; cbn; lia. Qed.

Lemma counters_inv_ext (w w' : World) :
  studySession w' = studySession w -> counters_inv w -> counters_inv w'.
Proof. unfold counters_inv; intros ->; trivial. Qed.

Lemma showCurrentCard_counters (now : Z) (w : World) :
  counters_inv w -> counters_inv (showCurrentCard now w).
Proof.
  intros H; unfold showCurrentCard; cbv zeta.
  destruct (Z.leb _ _); [|exact H].
  apply counters_inv_reset, endStudySession_session.
Qed.

Lemma pauseStudySession_counters (w : World) :
  counters_inv w -> counters_inv (pauseStudySession w).
Proof.
  unfold counters_inv, pauseStudySession.
  destruct (pauseBtn (dom w)) as [html|]; [|trivial].
  destruct (includes_Pause html), (timer (studySession w)); cbn; trivial.
Qed.

Lemma answerCard_counters (isCorrect : bool) (w : World) :
  counters_inv w -> counters_inv (fst (answerCard isCorrect w)).
Proof.
  unfold counters_inv; intros H.
  unfold answerCard; cbv zeta.
  destruct isCorrect; cbn.
  - destruct (JS.index _ _) as [card|]; cbn; [|lia].
    set (w2 := set_studySession _ (set_studySession _ w)).
    destruct (awardXP_frame (xpValue card) "Correct answer!" w2) as (Hss & _).
    rewrite !Hss. cbn.
    destruct (Z.leb _ _); cbn; rewrite ?Hss; cbn; lia.
  - destruct (Z.leb _ _); cbn; lia.
Qed.

Lemma step_counters (i : Input) (w : World) :
  counters_inv w -> counters_inv (step i w).
Proof.
  intros H; destruct i as [now| |now| |b|k now|h now]; cbn [step].
  - unfold startStudySession, startStudySessionFrom; cbv zeta.
    set (studyCards := if JS.length (savedCards w ++ generatedCards w) =? 0
                       then fallbackCards sampleQuestions
                       else savedCards w ++ generatedCards w).
    destruct (JS.length studyCards =? 0); [exact H|].
    cbn.
    apply counters_inv_ext
      with (w := showCurrentCard now
                   (set_studySession
                      (mkSession true (Some now) 0 0 0 studyCards
                                 (Some (nextHandle w)) (Some 0))
                      (snd (setInterval w)))); [reflexivity|].
    apply showCurrentCard_counters. unfold counters_inv; cbn; lia.
  - apply pauseStudySession_counters, H.
  - apply counters_inv_reset, endStudySession_session.
  - exact H.
  - apply answerCard_counters, H.
  - destruct (nth_error (timeouts w) k) as [[cb d]|]; [|exact H].
    destruct cb; cbn [runCallback].
    + apply showCurrentCard_counters. exact H.
    + apply counters_inv_reset, endStudySession_session.
  - destruct (existsb _ _); [|exact H].
    destruct (updateSessionTimer_frame now w) as (E & _).
    eapply counters_inv_ext; [exact E|exact H].
Qed.

(** X2.  On a page whose session counters are ordered (no more correct
    answers than cards studied, a position no further than the cards
    studied, none negative) they stay ordered whatever inputs follow, also
    when an answer is given with no card left and the handler raises. *)
Theorem counters_stay_ordered (tr : list Input) (w : World) :
  counters_inv w ->
  0 <= correctAnswers (studySession (run tr w))
    <= cardsStudied (studySession (run tr w))
  /\ 0 <= currentCard (studySession (run tr w))
       <= cardsStudied (studySession (run tr w)).
Proof.
  revert w; induction tr as [|i tr IH]; intros w H; [exact H|].
  change (run (i :: tr) w) with (run tr (step i w)).
  apply IH, step_counters, H.
Qed.

Lemma counters_stay_ordered_witness :
  let w := run [ClickStart 1700000000000; ClickAnswer false; ClickAnswer true]
               (worldWithSaved 1 "easy") in
  0 <= correctAnswers (studySession w) <= cardsStudied (studySession w)
  /\ 0 <= currentCard (studySession w) <= cardsStudied (studySession w).
Proof.
  cbv zeta.
  apply (counters_stay_ordered
           [ClickStart 1700000000000; ClickAnswer false; ClickAnswer true]
           (worldWithSaved 1 "easy")).
  unfold counters_inv; cbn; lia.
Defined.

(** ** The interval of the session timer *)

Lemma endStudySession_intervals (now : Z) (w : World) :
  intervals (endStudySession now w)
  = match timer (studySession w) with
    | Some h => filter (fun k => negb (Pos.eqb k h)) (intervals w)
    | None => intervals w
    end.
Proof.
  unfold endStudySession; cbn.
  destruct (0 <? sessionXP _ _ _); cbn.
  - set (w1 := match timer (studySession w) with
               | Some h => clearInterval h w
               | None => w
               end).
    destruct (awardXP_frame (sessionXP (cardsStudied (studySession w))
                (accuracy (correctAnswers (studySession w))
                          (cardsStudied (studySession w)))
                (sessionDuration now (studySession w)))
                "Study session completed!" w1) as (_ & _ & Hi & _).
    rewrite Hi. unfold w1. destruct (timer (studySession w)); reflexivity.
  - destruct (timer (studySession w)); reflexivity.
Qed.

Lemma filter_out_single (h : positive) :
  filter (fun k => negb (Pos.eqb k h)) [h] = [].
Proof. cbn. rewrite Pos.eqb_refl. reflexivity. Qed.









(** X4.  Starting a session while the session object still holds a running
    timer (as [studyGroup] does when it starts a session half a second
    after a click, whatever the state) leaves that interval running under
    no name: after the new session has been ended it still runs. *)
Theorem restart_orphans_interval (now later : Z) (w : World) (h : positive) :
  timer_inv w ->
  timer (studySession w) = Some h ->
  (h < nextHandle w)%positive ->
  intervals (startStudySession now w) = [h; nextHandle w]
  /\ timer (studySession (startStudySession now w)) = Some (nextHandle w)
  /\ intervals (endStudySession later (startStudySession now w)) = [h]
  /\ timer (studySession (endStudySession later (startStudySession now w)))
     = None.
Proof.
  intros H Ht Hfresh.
  assert (Hstart : intervals (startStudySession now w) = [h; nextHandle w]
                   /\ timer (studySession (startStudySession now w))
                      = Some (nextHandle w)).
  { unfold startStudySession, startStudySessionFrom; cbv zeta.
    set (studyCards := if JS.length (savedCards w ++ generatedCards w) =? 0
                       then fallbackCards sampleQuestions
                       else savedCards w ++ generatedCards w).
    assert (Hlen : 0 < JS.length studyCards).
    { unfold studyCards.
      destruct (Z.eqb_spec (JS.length (savedCards w ++ generatedCards w)) 0)
        as [_|Hne]; [reflexivity|unfold JS.length in *; lia]. }
    destruct (Z.eqb_spec (JS.length studyCards) 0) as [E|_]; [lia|].
    cbn. unfold showCurrentCard; cbn.
    destruct (Z.leb_spec (JS.length studyCards) 0) as [Hle|_]; [lia|].
    cbn. unfold timer_inv in H. rewrite H, Ht. split; reflexivity. }
  destruct Hstart as [Hi Htimer].
  split; [exact Hi|]. split; [exact Htimer|].
  rewrite endStudySession_intervals, endStudySession_session, Htimer, Hi.
  split; [|reflexivity].
  cbn. rewrite Pos.eqb_refl.
  destruct (Pos.eqb_spec h (nextHandle w)) as [E|_]; [lia|reflexivity].
Qed.

Lemma restart_orphans_interval_witness :
  let w := startStudySession 1700000000000 (worldWithSaved 1 "easy") in
  intervals (endStudySession 1700000090000 (startStudySession 1700000060000 w))
  = [1%positive].
Proof.
  cbv zeta.
  exact (proj1 (proj2 (proj2
           (restart_orphans_interval 1700000060000 1700000090000
              (startStudySession 1700000000000 (worldWithSaved 1 "easy"))
              1%positive eq_refl eq_refl eq_refl)))).
Defined.

(** ** The timer label *)

(** X5.  While a session is active and the label exists, a tick at or after
    the start writes minutes and seconds that add up to the whole seconds
    elapsed since the start, with the seconds from 0 to 59; on a page whose
    session is not active a tick changes nothing. *)
Theorem timer_label (now start : Z) (w : World) (old : Z * Z) :
  sessionTimer (dom w) = Some old ->
  active (studySession w) = true ->
  startTime (studySession w) = Some start ->
  0 < start <= now ->
  (exists m s,
      sessionTimer (dom (updateSessionTimer now w)) = Some (m, s)
      /\ m * 60 + s = (now - start) / 1000
      /\ 0 <= s < 60 /\ 0 <= m)
  /\ forall w' : World,
       active (studySession w') = false -> updateSessionTimer now w' = w'.
Proof.
  intros Hlabel Hactive Hstart Hnow. split.
  - unfold updateSessionTimer. rewrite Hlabel, Hactive, Hstart. cbn.
    destruct (Z.eqb_spec start 0) as [E|_]; [lia|]. cbn.
    unfold JS.floor_div, JS.remainder.
    assert (He : 0 <= (now - start) / 1000)
      by (apply Z.div_pos; lia).
    set (e := (now - start) / 1000) in *.
    exists (e / 60), (Z.rem e 60).
    rewrite Z.rem_mod_nonneg by lia.
    split; [reflexivity|].
    pose proof (Z.div_mod e 60 ltac:(lia)) as Hdm.
    pose proof (Z.mod_pos_bound e 60 ltac:(lia)) as Hb.
    assert (0 <= e / 60) by (apply Z.div_pos; lia).
    lia.
  - intros w' Hidle. unfold updateSessionTimer.
    destruct (sessionTimer (dom w')); [|reflexivity].
    rewrite Hidle. reflexivity.
Qed.

Lemma timer_label_witness :
  sessionTimer
    (dom (updateSessionTimer 1700000125000
            (startStudySession 1700000000000 (worldWithSaved 1 "easy"))))
  = Some (2, 5).
Proof.
  destruct (timer_label 1700000125000 1700000000000
              (startStudySession 1700000000000 (worldWithSaved 1 "easy"))
              (0, 0) eq_refl eq_refl eq_refl ltac:(lia))
    as [(m & s & Hshown & _) _].
  reflexivity.
Defined.

(** ** Pausing and resuming *)

(** X6.  On a page whose pause button reads Pause and whose only interval
    is the session's, one click stops the interval and clears the timer of
    the session object; a second click runs one new interval and gives the
    button its first reading back.  The two clicks leave the deck, the
    position, the counters, the start time and the user's statistics as
    they were. *)
Theorem pause_then_resume (w : World) :
  pauseBtn (dom w) = Some HtmlPause ->
  timer_inv w ->
  let paused := pauseStudySession w in
  let resumed := pauseStudySession paused in
  intervals paused = []
  /\ timer (studySession paused) = None
  /\ pauseBtn (dom paused) = Some HtmlResume
  /\ intervals resumed = [nextHandle w]
  /\ studySession resumed = set_timer (Some (nextHandle w)) (studySession w)
  /\ pauseBtn (dom resumed) = Some HtmlPause
  /\ userStats resumed = userStats w
  /\ events resumed
     = events w ++ [Notification SessionPaused info;
                    Notification SessionResumed info].
Proof.
  intros Hbtn Hinv; cbv zeta.
  unfold timer_inv in Hinv.
  assert (Hpaused : pauseStudySession w
                    = showNotification SessionPaused info
                        (set_dom (mkDom (Some HtmlResume) (sessionTimer (dom w)))
                           (mkWorld (savedCards w) (generatedCards w)
                              (set_timer None (studySession w)) (userStats w)
                              (currentUser w) (dom w) [] (nextHandle w)
                              (timeouts w) (events w)))).
  { unfold pauseStudySession. rewrite Hbtn. cbn.
    destruct (timer (studySession w)) as [h|] eqn:Ht; cbn.
    - unfold set_studySession, clearInterval; cbn.
      rewrite Hinv, filter_out_single. reflexivity.
    - destruct w as [sc gc ss us cu d iv nh ts ev]; destruct ss; cbn in *.
      subst. reflexivity. }
  rewrite Hpaused. unfold pauseStudySession; cbn. unfold set_timer; cbn.
  rewrite <- app_assoc. repeat split; reflexivity.
Qed.

Lemma pause_then_resume_witness :
  let w := startStudySession 1700000000000 (worldWithSaved 1 "easy") in
  intervals (pauseStudySession (pauseStudySession w)) = [2%positive].
Proof.
  cbv zeta.
  exact (proj1 (proj2 (proj2 (proj2
           (pause_then_resume
              (startStudySession 1700000000000 (worldWithSaved 1 "easy"))
              eq_refl eq_refl))))).
Defined.

(** ** The XP of a whole session *)










(** * Properties of the rest of the page *)

(** ** The dashboard *)

(** X8.  For a logged-in user whose level follows from a non-negative
    experience, the dashboard's XP to the next level is between 1 and 100
    and is exact: an award of that amount brings the level shown as next,
    and no smaller award changes the level. *)
Theorem xp_to_next_is_exact (w : World) (d : Dashboard) :
  level_inv w ->
  0 <= xp (userStats w) ->
  dashboard w = Some d ->
  1 <= xpToNext d <= 100
  /\ nextLevel d = currentLevel d + 1
  /\ (forall reason,
         level (userStats (awardXP (xpToNext d) reason w)) = nextLevel d)
  /\ (forall amount reason,
         0 <= amount < xpToNext d ->
         level (userStats (awardXP amount reason w)) = currentLevel d).
Proof.
  unfold level_inv, dashboard, JS.floor_div, JS.remainder.
  intros Hinv Hxp Hd.
  destruct (currentUser w) as [u|]; [|discriminate].
  set (toNext := 100 - Z.rem (xp (userStats w)) 100) in Hd.
  set (next := level (userStats w) + 1) in Hd.
  injection Hd as Hd; subst d.
  cbn [xpToNext nextLevel currentLevel]. subst toNext next.
  rewrite Z.rem_mod_nonneg by lia.
  pose proof (Z.div_mod (xp (userStats w)) 100 ltac:(lia)) as Hdm.
  pose proof (Z.mod_pos_bound (xp (userStats w)) 100 ltac:(lia)) as Hb.
  set (q := xp (userStats w) / 100) in *.
  set (r := xp (userStats w) mod 100) in *.
  split; [lia|]. split; [reflexivity|]. split.
  - intros reason. rewrite awardXP_level. unfold JS.floor_div.
    replace ((xp (userStats w) + (100 - r)) / 100) with (q + 1)
      by (apply Z.div_unique with (r := 0); lia).
    destruct (Z.ltb_spec (level (userStats w)) (q + 1 + 1)); lia.
  - intros amount reason Ha. rewrite awardXP_level. unfold JS.floor_div.
    replace ((xp (userStats w) + amount) / 100) with q
      by (apply Z.div_unique with (r := r + amount); lia).
    destruct (Z.ltb_spec (level (userStats w)) (q + 1)); lia.
Qed.

Lemma xp_to_next_is_exact_witness :
  level (userStats (awardXP 50 "Correct answer!"
                            (simulateLogin "Steven" initialWorld))) = 6.
Proof.
  destruct (xp_to_next_is_exact (simulateLogin "Steven" initialWorld)
              (mkDashboard 5 450 7 0 "Student"
                 (PrimFloat.mul
                    (PrimFloat.div (JS.number 50) (JS.number 100))
                    (JS.number 100))
                 5 6 50)
              eq_refl ltac:(cbn; lia) eq_refl)
    as (_ & _ & Hnext & _).
  exact (Hnext "Correct answer!").
Defined.

(** ** Generated cards *)

Lemma filter_length_le {A : Type} (f : A -> bool) (l : list A) :
  (List.length (filter f l) <= List.length l)%nat.
Proof.
  induction l as [|x l IH]; cbn; [lia|].
  destruct (f x); cbn; lia.
Qed.

Lemma lookupSample_three (subj : string) (qs : list SampleQuestion) :
  lookupSample sampleQuestions subj = Some qs -> List.length qs = 3%nat.
Proof.
  unfold sampleQuestions; cbn [lookupSample].
  repeat (match goal with
          | |- context [if String.eqb ?k subj then _ else _] =>
              destruct (String.eqb k subj)
          end;
          [intros E; injection E as <-; reflexivity|]).
  discriminate.
Qed.

Lemma generateSampleCards_five (subj diff : string) :
  generateSampleCards subj diff 5
  = map (fun q => mkCard (sq_question q) (sq_answer q) subj diff)
        (match lookupSample sampleQuestions subj with
         | Some qs => qs
         | None => math_questions
         end).
Proof.
  unfold generateSampleCards; cbv zeta.
  set (qs := match lookupSample sampleQuestions subj with
             | Some qs => qs
             | None => math_questions
             end).
  assert (Hlen : List.length qs = 3%nat).
  { unfold qs. destruct (lookupSample sampleQuestions subj) eqn:E;
      [apply (lookupSample_three subj), E|reflexivity]. }
  pose proof (filter_length_le
                (fun q => String.eqb (sq_difficulty q) diff) qs) as Hf.
  destruct (Nat.leb_spec 5 (List.length
              (filter (fun q => String.eqb (sq_difficulty q) diff) qs)));
    [lia|].
  rewrite firstn_all2 by lia. reflexivity.
Qed.

(** X9.  With notes entered and the button present, generating flashcards
    replaces the unsaved cards, whatever they were, by exactly three cards:
    the three entries of the chosen subject's category (the math category
    for a subject without one), in their order, each labelled with the
    chosen subject and the chosen difficulty, whatever the entry's own
    difficulty; the toast reports 3, not the 5 asked for. *)
Theorem generating_gives_the_category (notes subj diff : string) (w : World) :
  notes <> "" ->
  let qs := match lookupSample sampleQuestions subj with
            | Some qs => qs
            | None => math_questions
            end in
  let result := generateAIFlashcards (Some (notes, subj, diff)) true w in
  generatedCards (fst result)
  = map (fun q => mkCard (sq_question q) (sq_answer q) subj diff) qs
  /\ List.length (generatedCards (fst result)) = 3%nat
  /\ snd result = Some (GeneratedFlashcards 3)
  /\ savedCards (fst result) = savedCards w
  /\ userStats (fst result) = userStats w.
Proof.
  intros Hnotes; cbv zeta.
  unfold generateAIFlashcards.
  destruct (String.eqb_spec notes "") as [E|_]; [contradiction|].
  cbn [fst snd]. rewrite generateSampleCards_five.
  assert (Hlen : List.length
                   (match lookupSample sampleQuestions subj with
                    | Some qs => qs
                    | None => math_questions
                    end) = 3%nat).
  { destruct (lookupSample sampleQuestions subj) eqn:E;
      [apply (lookupSample_three subj), E|reflexivity]. }
  unfold JS.length. cbn [generatedCards set_generatedCards].
  rewrite length_map, Hlen. repeat split; reflexivity.
Qed.

Lemma generating_gives_the_category_witness :
  map difficulty
      (generatedCards
         (fst (generateAIFlashcards (Some ("Cells", "science", "hard")) true
                                    initialWorld)))
  = ["hard"; "hard"; "hard"].
Proof.
  rewrite (proj1 (generating_gives_the_category "Cells" "science" "hard"
                    initialWorld ltac:(discriminate))).
  reflexivity.
Defined.

(** ** Saving cards *)

Lemma totalXP_from (cs : list Card) :
  forall s : Z,
    fold_left (fun sum card =>
                 match sum, XP_VALUES (difficulty card) with
                 | Some s, Some v => Some (s + v)
                 | _, _ => None
                 end) cs (Some s)
    = if forallb known_difficulty cs then Some (s + sumValues cs) else None.
Proof.
  induction cs as [|c cs IH]; intros s.
  - cbn. f_equal. lia.
  - change (sumValues (c :: cs)) with (xpValue c + sumValues cs).
    cbn [fold_left forallb].
    unfold known_difficulty at 1. unfold xpValue.
    destruct (XP_VALUES (difficulty c)) as [v|]; cbn [andb].
    + rewrite IH.
      destruct (forallb known_difficulty cs); [f_equal; lia|reflexivity].
    + clear IH. induction cs as [|c' cs IH]; [reflexivity|exact IH].
Qed.

Lemma sumValues_bounds (cs : list Card) :
  3 * JS.length cs <= sumValues cs <= 8 * JS.length cs.
Proof.
  unfold JS.length.
  induction cs as [|c cs IH]; cbn [sumValues fold_right List.length]; [lia|].
  fold (sumValues cs).
  destruct (xpValue_cases c) as [E|[E|E]]; rewrite E; lia.
Qed.

(** X10.  The XP total of a save is a number exactly when every card has a
    difficulty that is a key of [XP_VALUES]; it is then the sum of the
    cards' values, between 3 and 8 per card, and one card with any other
    difficulty makes the whole total [NaN]. *)
Theorem total_of_a_save (cs : list Card) :
  totalXP cs = (if forallb known_difficulty cs then Some (sumValues cs)
                else None)
  /\ 3 * JS.length cs <= sumValues cs <= 8 * JS.length cs
  /\ (forall c, In c cs -> XP_VALUES (difficulty c) = None ->
                totalXP cs = None).
Proof.
  assert (Htotal : totalXP cs = if forallb known_difficulty cs
                                then Some (sumValues cs) else None).
  { unfold totalXP. rewrite totalXP_from. reflexivity. }
  split; [exact Htotal|]. split; [apply sumValues_bounds|].
  intros c Hin Hnone. rewrite Htotal.
  destruct (forallb known_difficulty cs) eqn:E; [|reflexivity].
  rewrite forallb_forall in E. specialize (E c Hin).
  unfold known_difficulty in E. rewrite Hnone in E. discriminate.
Qed.

Lemma saveAllCards_resume_known (w : World) :
  forallb known_difficulty (generatedCards w) = true ->
  saveAllCards_resume w
  = Some (set_generatedCards []
            (awardXP (sumValues (generatedCards w)) "Cards saved!"
               (set_savedCards (savedCards w ++ generatedCards w) w)),
          SavedFlashcards (JS.length (generatedCards w))).
Proof.
  intros Hknown. unfold saveAllCards_resume; cbv zeta.
  cbn [generatedCards set_savedCards].
  unfold totalXP. rewrite totalXP_from, Hknown. cbn [Z.add].
  destruct (awardXP_frame (sumValues (generatedCards w)) "Cards saved!"
              (set_savedCards (savedCards w ++ generatedCards w) w))
    as (_ & _ & _ & _ & _ & Hgen).
  rewrite Hgen. reflexivity.
Qed.

(** X11.  When every unsaved card has a known difficulty, saving appends
    the unsaved cards to the saved ones in their order, empties the unsaved
    list, awards the sum of their values in one award with the reason
    [Cards saved!], keeps the level formula, and leaves the session
    alone. *)
Theorem saving_moves_and_awards (w : World) :
  forallb known_difficulty (generatedCards w) = true ->
  exists w',
    saveAllCards_resume w
    = Some (w', SavedFlashcards (JS.length (generatedCards w)))
    /\ savedCards w' = savedCards w ++ generatedCards w
    /\ generatedCards w' = []
    /\ xp (userStats w') = xp (userStats w) + sumValues (generatedCards w)
    /\ xpAwards (events w')
       = xpAwards (events w)
         ++ [(sumValues (generatedCards w), "Cards saved!")]
    /\ (level_inv w -> level_inv w')
    /\ studySession w' = studySession w.
Proof.
  intros Hknown. rewrite (saveAllCards_resume_known w Hknown).
  eexists; split; [reflexivity|].
  set (w1 := set_savedCards (savedCards w ++ generatedCards w) w).
  destruct (awardXP_frame (sumValues (generatedCards w)) "Cards saved!" w1)
    as (Hss & _ & _ & _ & Hsaved & _).
  cbn [savedCards generatedCards userStats events studySession
       set_generatedCards].
  rewrite Hsaved, Hss, awardXP_xp, awardXP_events, !xpAwards_app.
  repeat split; try reflexivity.
  - cbn. destruct (level (userStats w) <? _); reflexivity.
  - intros Hinv.
    assert (H1 : level_inv w1) by exact Hinv.
    apply (awardXP_level_inv (sumValues (generatedCards w)) "Cards saved!")
      in H1; [exact H1|].
    pose proof (sumValues_bounds (generatedCards w)). unfold JS.length in *.
    lia.
Qed.

Lemma saving_moves_and_awards_witness :
  exists w',
    saveAllCards_resume
      (set_generatedCards [mkCard "q" "a" "math" "hard"] initialWorld)
    = Some (w', SavedFlashcards 1)
    /\ xp (userStats w') = 8.
Proof.
  destruct (saving_moves_and_awards
              (set_generatedCards [mkCard "q" "a" "math" "hard"] initialWorld)
              eq_refl)
    as (w' & Hres & _ & _ & Hxp & _).
  exists w'. split; [exact Hres|exact Hxp].
Defined.

Lemma startStudySession_deck (now : Z) (w : World) :
  cards (studySession (startStudySession now w))
  = if JS.length (savedCards w ++ generatedCards w) =? 0
    then fallbackCards sampleQuestions
    else savedCards w ++ generatedCards w.
Proof.
  unfold startStudySession, startStudySessionFrom; cbv zeta.
  set (studyCards := if JS.length (savedCards w ++ generatedCards w) =? 0
                     then fallbackCards sampleQuestions
                     else savedCards w ++ generatedCards w).
  assert (Hlen : 0 < JS.length studyCards).
  { unfold studyCards.
    destruct (Z.eqb_spec (JS.length (savedCards w ++ generatedCards w)) 0)
      as [_|Hne]; [reflexivity|unfold JS.length in *; lia]. }
  destruct (Z.eqb_spec (JS.length studyCards) 0) as [E|_]; [lia|].
  cbn. unfold showCurrentCard; cbn.
  destruct (Z.leb_spec (JS.length studyCards) 0) as [Hle|_]; [lia|].
  reflexivity.
Qed.

(** X12.  Saving does not change what is studied: a session started after a
    save has the deck, in the same order, that a session started instead of
    the save would have had. *)
Theorem saving_keeps_the_deck (now : Z) (w w' : World) (t : CardToast) :
  saveAllCards_resume w = Some (w', t) ->
  cards (studySession (startStudySession now w'))
  = cards (studySession (startStudySession now w)).
Proof.
  unfold saveAllCards_resume; cbv zeta.
  cbn [generatedCards set_savedCards].
  destruct (totalXP (generatedCards w)) as [total|]; [|discriminate].
  intros H; injection H as Hw _.
  set (w1 := set_savedCards (savedCards w ++ generatedCards w) w) in *.
  destruct (awardXP_frame total "Cards saved!" w1)
    as (_ & _ & _ & _ & Hsaved & _).
  rewrite !startStudySession_deck, <- Hw.
  cbn [savedCards generatedCards set_generatedCards].
  rewrite Hsaved. cbn [savedCards set_savedCards w1].
  unfold w1; cbn [savedCards set_savedCards].
  rewrite app_nil_r. reflexivity.
Qed.

Lemma saving_keeps_the_deck_witness :
  cards (studySession
           (startStudySession 1700000000000
              (set_generatedCards []
                 (awardXP 8 "Cards saved!"
                    (set_savedCards [mkCard "q" "a" "math" "hard"]
                       (set_generatedCards [mkCard "q" "a" "math" "hard"]
                                           initialWorld))))))
  = cards (studySession
             (startStudySession 1700000000000
                (set_generatedCards [mkCard "q" "a" "math" "hard"]
                                    initialWorld))).
Proof.
  exact (saving_keeps_the_deck 1700000000000
           (set_generatedCards [mkCard "q" "a" "math" "hard"] initialWorld)
           _ (SavedFlashcards 1) eq_refl).
Defined.

(** X13.  Right after a save the total-cards statistic is the number of
    cards saved before plus twice the number just saved, because the award
    counts them in both lists before the unsaved list is emptied; the cards
    held are the sum of the two numbers, and the next award of any kind
    sets the statistic to that. *)
Theorem total_cards_after_save (w w' : World) (t : CardToast) :
  saveAllCards_resume w = Some (w', t) ->
  totalCards (userStats w')
  = JS.length (savedCards w) + JS.length (generatedCards w) * 2
  /\ JS.length (savedCards w') + JS.length (generatedCards w')
     = JS.length (savedCards w) + JS.length (generatedCards w)
  /\ forall amount reason,
       totalCards (userStats (awardXP amount reason w'))
       = JS.length (savedCards w) + JS.length (generatedCards w).
Proof.
  unfold saveAllCards_resume; cbv zeta.
  cbn [generatedCards set_savedCards].
  destruct (totalXP (generatedCards w)) as [total|]; [|discriminate].
  intros H; injection H as Hw _. subst w'.
  set (w1 := set_savedCards (savedCards w ++ generatedCards w) w).
  destruct (awardXP_frame total "Cards saved!" w1)
    as (_ & _ & _ & _ & Hsaved & Hgen).
  assert (Hlen : JS.length (savedCards w ++ generatedCards w)
                 = JS.length (savedCards w) + JS.length (generatedCards w))
    by (unfold JS.length; rewrite length_app; lia).
  split; [|split].
  - cbn [userStats set_generatedCards].
    unfold awardXP; cbn.
    destruct (level (userStats w) <? _); [destruct (currentUser w)|]; cbn;
      rewrite Hlen; lia.
  - cbn [savedCards generatedCards set_generatedCards].
    rewrite Hsaved. cbn [w1 savedCards set_savedCards].
    unfold w1; cbn [savedCards set_savedCards]. rewrite Hlen.
    unfold JS.length; cbn; lia.
  - intros amount reason.
    unfold awardXP at 1; cbn.
    assert (E : savedCards (awardXP total "Cards saved!" w1)
                = savedCards w ++ generatedCards w) by exact Hsaved.
    destruct (level _ <? _); [destruct (currentUser _)|]; cbn;
      rewrite E, Hlen; unfold JS.length; cbn; lia.
Qed.

Lemma total_cards_after_save_witness :
  totalCards
    (userStats
       (set_generatedCards []
          (awardXP 8 "Cards saved!"
             (set_savedCards [mkCard "q" "a" "math" "hard"]
                (set_generatedCards [mkCard "q" "a" "math" "hard"]
                                    initialWorld)))))
  = 0 + 1 * 2.
Proof.
  exact (proj1 (total_cards_after_save
                  (set_generatedCards [mkCard "q" "a" "math" "hard"]
                                      initialWorld)
                  _ (SavedFlashcards 1) eq_refl)).
Defined.

(** ** Cards added by hand *)

Lemma addManualCards_cards (forms : list (string * string * string * string)) :
  forall w : World,
    generatedCards (addManualCards forms w)
    = generatedCards w ++ map manualCard (filter filled forms)
    /\ savedCards (addManualCards forms w) = savedCards w.
Proof.
  induction forms as [|f forms IH]; intros w.
  - cbn. rewrite app_nil_r. split; reflexivity.
  - change (addManualCards (f :: forms) w)
      with (addManualCards forms (fst (addManualCard (Some f) w))).
    destruct (IH (fst (addManualCard (Some f) w))) as [Hgen Hsaved].
    rewrite Hgen, Hsaved. clear IH Hgen Hsaved.
    destruct f as [[[q a] subj] diff].
    unfold addManualCard. cbn [filter filled].
    destruct (String.eqb q "" || String.eqb a ""); cbn.
    + split; reflexivity.
    + rewrite <- app_assoc. split; reflexivity.
Qed.

(** X14.  Cards added by hand pile up behind the unsaved cards in the order
    of the clicks; a form with an empty question or answer adds nothing;
    and once one card was added, a session started then studies the saved
    cards, then the unsaved ones, then the added ones, in that order. *)
Theorem manual_cards_in_order
  (forms : list (string * string * string * string)) (now : Z) (w : World) :
  generatedCards (addManualCards forms w)
  = generatedCards w ++ map manualCard (filter filled forms)
  /\ savedCards (addManualCards forms w) = savedCards w
  /\ (filter filled forms <> [] ->
      cards (studySession (startStudySession now (addManualCards forms w)))
      = savedCards w ++ generatedCards w
        ++ map manualCard (filter filled forms)).
Proof.
  destruct (addManualCards_cards forms w) as [Hgen Hsaved].
  split; [exact Hgen|]. split; [exact Hsaved|].
  intros Hsome. rewrite startStudySession_deck, Hgen, Hsaved.
  destruct (Z.eqb_spec
              (JS.length (savedCards w ++ generatedCards w
                          ++ map manualCard (filter filled forms))) 0)
    as [E|_]; [|reflexivity].
  exfalso. unfold JS.length in E. rewrite !length_app, length_map in E.
  destruct (filter filled forms); [contradiction|cbn in E; lia].
Qed.

(** * Properties of the planner *)

(** ** Todo items *)

Lemma flipFirst_back (id : Z) (items : list TodoItem) :
  forall (c : bool) (items' : list TodoItem),
    flipFirst id items = Some (c, items') ->
    flipFirst id items' = Some (negb c, items).
Proof.
  induction items as [|t items IH]; intros c items' H; [discriminate|].
  cbn [flipFirst] in H.
  destruct (Z.eqb_spec (todo_id t) id) as [E|Hne].
  - injection H as <- <-. cbn [flipFirst todo_id].
    destruct (Z.eqb_spec (todo_id t) id) as [_|Hne]; [|contradiction].
    cbn. rewrite !negb_involutive. destruct t; reflexivity.
  - destruct (flipFirst id items) as [[c0 rest]|]; [|discriminate].
    injection H as <- <-. cbn [flipFirst].
    destruct (Z.eqb_spec (todo_id t) id) as [E|_]; [contradiction|].
    rewrite (IH c0 rest eq_refl). reflexivity.
Qed.

Lemma flipFirst_found (id : Z) (items : list TodoItem) :
  existsb (fun t => todo_id t =? id) items
  = match flipFirst id items with Some _ => true | None => false end.
Proof.
  induction items as [|t items IH]; [reflexivity|].
  cbn [existsb flipFirst].
  destruct (todo_id t =? id); [reflexivity|].
  cbn [orb]. rewrite IH. destruct (flipFirst id items) as [[c rest]|]; reflexivity.
Qed.

Lemma flipFirst_split (id : Z) (pre post : list TodoItem) (t : TodoItem) :
  todo_id t = id ->
  existsb (fun u => todo_id u =? id) pre = false ->
  flipFirst id (pre ++ t :: post)
  = Some (negb (completed t),
          pre ++ mkTodo (todo_id t) (title t) (date t) (priority t)
                        (todo_subject t) (description t) (negb (completed t))
              :: post).
Proof.
  intros Hid. induction pre as [|u pre IH]; intros Hpre.
  - cbn [app flipFirst]. rewrite Hid, Z.eqb_refl. reflexivity.
  - cbn [existsb] in Hpre. apply orb_false_iff in Hpre as [Hu Hpre].
    cbn [app flipFirst]. rewrite Hu, (IH Hpre). reflexivity.
Qed.

(** X15.  One tick changes the first item with the given id and nothing
    else in the list: its completed flag is inverted, and exactly when that
    completes the item 2 XP are awarded with the reason [Task completed!];
    reopening an item awards and takes back nothing.  So ticking a todo and
    ticking it again leaves the list as it was, yet the experience has
    grown by 2.  With no item of that id nothing changes.  The level
    formula is kept. *)
Theorem toggling_twice (id : Z) (a : App) :
  let a2 := toggleTodo id (toggleTodo id a) in
  todoItems a2 = todoItems a
  /\ timetableItems a2 = timetableItems a
  /\ xp (userStats (world a2))
     = xp (userStats (world a))
       + (if existsb (fun t => todo_id t =? id) (todoItems a) then 2 else 0)
  /\ (existsb (fun t => todo_id t =? id) (todoItems a) = false -> a2 = a)
  /\ (level_inv (world a) -> level_inv (world a2))
  /\ (existsb (fun t => todo_id t =? id) (todoItems a) = false ->
      toggleTodo id a = a)
  /\ (forall (pre post : list TodoItem) (t : TodoItem),
         todoItems a = pre ++ t :: post ->
         todo_id t = id ->
         existsb (fun u => todo_id u =? id) pre = false ->
         let a1 := toggleTodo id a in
         todoItems a1
         = pre ++ mkTodo (todo_id t) (title t) (date t) (priority t)
                         (todo_subject t) (description t)
                         (negb (completed t))
               :: post
         /\ timetableItems a1 = timetableItems a
         /\ xp (userStats (world a1))
            = xp (userStats (world a)) + (if completed t then 0 else 2)
         /\ xpAwards (events (world a1))
            = xpAwards (events (world a))
              ++ (if completed t then [] else [(2, "Task completed!")])
         /\ (completed t = true -> world a1 = world a)).
Proof.
  cbv zeta.
  assert (Htwice :
    todoItems (toggleTodo id (toggleTodo id a)) = todoItems a
    /\ timetableItems (toggleTodo id (toggleTodo id a)) = timetableItems a
    /\ xp (userStats (world (toggleTodo id (toggleTodo id a))))
       = xp (userStats (world a))
         + (if existsb (fun t => todo_id t =? id) (todoItems a) then 2 else 0)
    /\ (existsb (fun t => todo_id t =? id) (todoItems a) = false ->
        toggleTodo id (toggleTodo id a) = a)
    /\ (level_inv (world a) ->
        level_inv (world (toggleTodo id (toggleTodo id a))))).
  { rewrite flipFirst_found.
    unfold toggleTodo at 2 4 6 8 10.
    destruct (flipFirst id (todoItems a)) as [[c items]|] eqn:E.
    - pose proof (flipFirst_back id (todoItems a) c items E) as Hback.
      unfold toggleTodo. cbn [todoItems world timetableItems].
      rewrite Hback. cbn [todoItems world timetableItems].
      split; [reflexivity|]. split; [reflexivity|].
      destruct c; cbn [negb].
      + rewrite awardXP_xp.
        split; [reflexivity|]. split; [discriminate|].
        intros H. apply awardXP_level_inv; [exact H|lia].
      + rewrite awardXP_xp.
        split; [reflexivity|]. split; [discriminate|].
        intros H. apply awardXP_level_inv; [exact H|lia].
    - unfold toggleTodo. rewrite E.
      rewrite Z.add_0_r. repeat split; trivial. }
  destruct Htwice as (H1 & H2 & H3 & H4 & H5).
  split; [exact H1|]. split; [exact H2|]. split; [exact H3|].
  split; [exact H4|]. split; [exact H5|]. split.
  - rewrite flipFirst_found. unfold toggleTodo.
    destruct (flipFirst id (todoItems a)) as [[c items]|];
      [discriminate|reflexivity].
  - intros pre post t Hitems Hid Hpre.
    unfold toggleTodo.
    rewrite Hitems, (flipFirst_split id pre post t Hid Hpre).
    cbn [todoItems timetableItems world].
    split; [reflexivity|]. split; [reflexivity|].
    destruct (completed t); cbn [negb].
    + rewrite Z.add_0_r, app_nil_r. repeat split; reflexivity.
    + rewrite awardXP_xp, awardXP_events, !xpAwards_app. cbn.
      split; [reflexivity|]. split; [|discriminate].
      destruct (level (userStats (world a)) <? _); reflexivity.
Qed.

Lemma toggling_twice_witness :
  let buy := mkTodo 7 "Read chapter 3" "2025-01-10" "high" "math" "" false in
  let a := mkApp initialWorld [buy] [] in
  completed (hd buy (todoItems (toggleTodo 7 a))) = true
  /\ xp (userStats (world (toggleTodo 7 a))) = 2
  /\ todoItems (toggleTodo 7 (toggleTodo 7 a)) = [buy]
  /\ xp (userStats (world (toggleTodo 7 (toggleTodo 7 a)))) = 2.
Proof.
  cbv zeta.
  pose proof (toggling_twice 7
                (mkApp initialWorld
                   [mkTodo 7 "Read chapter 3" "2025-01-10" "high" "math" ""
                           false] []))
    as (Hlist & _ & Hxp & _ & _ & _ & Honce).
  destruct (Honce [] []
              (mkTodo 7 "Read chapter 3" "2025-01-10" "high" "math" "" false)
              eq_refl eq_refl eq_refl) as (Hitems & _ & Hxp1 & _).
  split; [rewrite Hitems; reflexivity|].
  split; [exact Hxp1|]. split; [exact Hlist|exact Hxp].
Defined.

(** X16.  Deleting a todo leaves the list filtered: the items whose id is
    not the given one, in the order they had (what came before stays
    before), so every item with that id is removed and no other; ticking
    that id afterwards, or deleting it again, changes nothing, and no
    experience is involved. *)
Theorem deleting_a_todo (id : Z) (a : App) :
  let a' := fst (deleteTodo id a) in
  todoItems a' = filter (fun t => negb (todo_id t =? id)) (todoItems a)
  /\ timetableItems a' = timetableItems a
  /\ snd (deleteTodo id a) = TodoDeleted
  /\ (forall pre post : list TodoItem,
         todoItems a = pre ++ post ->
         todoItems a'
         = filter (fun t => negb (todo_id t =? id)) pre
           ++ filter (fun t => negb (todo_id t =? id)) post)
  /\ (forall t, In t (todoItems a') <-> In t (todoItems a) /\ todo_id t <> id)
  /\ (forall other,
         other <> id ->
         filter (fun t => todo_id t =? other) (todoItems a')
         = filter (fun t => todo_id t =? other) (todoItems a))
  /\ toggleTodo id a' = a'
  /\ fst (deleteTodo id a') = a'
  /\ world a' = world a.
Proof.
  cbv zeta. unfold deleteTodo; cbn [fst todoItems world timetableItems].
  assert (Hnone : forall items,
             flipFirst id (filter (fun t => negb (todo_id t =? id)) items)
             = None).
  { induction items as [|t items IH]; [reflexivity|].
    cbn [filter]. destruct (Z.eqb_spec (todo_id t) id) as [E|Hne]; cbn [negb].
    - exact IH.
    - cbn [flipFirst].
      destruct (Z.eqb_spec (todo_id t) id) as [E|_]; [contradiction|].
      rewrite IH. reflexivity. }
  split; [reflexivity|]. split; [reflexivity|]. split; [reflexivity|].
  split; [intros pre post ->; apply filter_app|].
  split; [|split; [|split; [|split]]].
  - intros t. rewrite filter_In.
    destruct (Z.eqb_spec (todo_id t) id); cbn; intuition congruence.
  - intros other Hother.
    induction (todoItems a) as [|t items IH]; [reflexivity|].
    cbn [filter].
    destruct (Z.eqb_spec (todo_id t) id) as [E|Hne]; cbn [negb].
    + destruct (Z.eqb_spec (todo_id t) other) as [E'|_]; [lia|exact IH].
    + cbn [filter]. destruct (todo_id t =? other); [f_equal|]; exact IH.
  - unfold toggleTodo; cbn [todoItems]. rewrite Hnone. reflexivity.
  - f_equal.
    induction (todoItems a) as [|t items IH]; [reflexivity|].
    cbn [filter]. destruct (Z.eqb_spec (todo_id t) id) as [E|Hne]; cbn [negb].
    + exact IH.
    + cbn [filter].
      destruct (Z.eqb_spec (todo_id t) id) as [E|_]; [contradiction|].
      cbn [negb]. f_equal. exact IH.
  - reflexivity.
Qed.

(** ** The timetable *)

Lemma leb_false_ltb (s1 s2 : string) :
  String.leb s1 s2 = false -> String.ltb s2 s1 = true.
Proof.
  unfold String.leb, String.ltb. rewrite (String.compare_antisym s1 s2).
  destruct (String.compare s2 s1); cbn; congruence.
Qed.

Lemma saveTimetableItem_inv (now : Z)
  (form : option (string * string * string * string)) (a : App) :
  timetable_inv a -> timetable_inv (fst (saveTimetableItem now form a)).
Proof.
  unfold timetable_inv, saveTimetableItem; intros H.
  destruct form as [[[[subj d] startT] endT]|]; [|exact H].
  destruct (String.eqb startT "" || String.eqb endT ""); [exact H|].
  destruct (String.leb endT startT) eqn:E; [exact H|].
  cbn. apply Forall_app; split; [exact H|].
  constructor; [|constructor]. cbn. apply leb_false_ltb, E.
Qed.

(** X17.  Whatever is saved, ticked or deleted in the planner, in any
    order, a timetable whose entries all start before they end (as strings)
    stays such a timetable: an entry whose end is not after its start is
    never stored. *)
Theorem timetable_entries_end_after_start (tr : list PlannerInput) (a : App) :
  timetable_inv a ->
  Forall (fun e => String.ltb (entry_startTime e) (entry_endTime e) = true)
         (timetableItems (plannerRun tr a)).
Proof.
  revert a; induction tr as [|i tr IH]; intros a H; [exact H|].
  change (plannerRun (i :: tr) a) with (plannerRun tr (plannerStep i a)).
  apply IH. destruct i as [now form|id|id|now form]; cbn [plannerStep].
  - unfold saveTodoItem.
    destruct form as [[[[[ttl dt] prio] subj] descr]|]; [|exact H].
    destruct (String.eqb ttl "" || String.eqb dt ""); exact H.
  - unfold toggleTodo.
    destruct (flipFirst id (todoItems a)) as [[c items]|]; exact H.
  - exact H.
  - apply saveTimetableItem_inv, H.
Qed.

Lemma timetable_entries_end_after_start_witness :
  timetableItems
    (plannerRun [SaveTimetable 1700000000000
                   (Some ("math", "Monday", "10:00", "09:00"));
                 SaveTimetable 1700000001000
                   (Some ("math", "Monday", "09:00", "10:30"))]
                (mkApp initialWorld [] []))
  = [mkEntry 1700000001000 "math" "Monday" "09:00" "10:30"]
  /\ Forall (fun e => String.ltb (entry_startTime e) (entry_endTime e) = true)
            (timetableItems
               (plannerRun [SaveTimetable 1700000000000
                              (Some ("math", "Monday", "10:00", "09:00"));
                            SaveTimetable 1700000001000
                              (Some ("math", "Monday", "09:00", "10:30"))]
                           (mkApp initialWorld [] []))).
Proof.
  split; [reflexivity|].
  apply (timetable_entries_end_after_start
           [SaveTimetable 1700000000000
              (Some ("math", "Monday", "10:00", "09:00"));
            SaveTimetable 1700000001000
              (Some ("math", "Monday", "09:00", "10:30"))]
           (mkApp initialWorld [] [])).
  constructor.
Defined.

Lemma two_digits_compare (a b : nat) :
  (a < 100)%nat -> (b < 100)%nat ->
  String.compare (two_digits a) (two_digits b) = Nat.compare a b.
Proof.
  intros Ha Hb.
  assert (Hall : two_digits_checked = true) by (vm_compute; reflexivity).
  unfold two_digits_checked in Hall.
  rewrite forallb_forall in Hall.
  specialize (Hall a ltac:(apply in_seq; lia)).
  rewrite forallb_forall in Hall.
  specialize (Hall b ltac:(apply in_seq; lia)).
  destruct (String.compare (two_digits a) (two_digits b)),
           (Nat.compare a b); try reflexivity; discriminate.
Qed.

Lemma compare_append (s1 s2 t1 t2 : string) :
  String.length s1 = String.length s2 ->
  String.compare (s1 ++ t1) (s2 ++ t2)
  = match String.compare s1 s2 with
    | Eq => String.compare t1 t2
    | c => c
    end.
Proof.
  revert s2; induction s1 as [|c1 s1 IH]; intros [|c2 s2] Hlen;
    try discriminate; [reflexivity|].
  cbn [String.append String.compare].
  destruct (Ascii.compare c1 c2); [|reflexivity|reflexivity].
  apply IH. cbn in Hlen. lia.
Qed.

Lemma clock_compare (h1 m1 h2 m2 : nat) :
  (h1 < 24)%nat -> (m1 < 60)%nat -> (h2 < 24)%nat -> (m2 < 60)%nat ->
  String.compare (clock h1 m1) (clock h2 m2)
  = Nat.compare (h1 * 60 + m1) (h2 * 60 + m2).
Proof.
  intros Hh1 Hm1 Hh2 Hm2.
  unfold clock.
  rewrite (compare_append (two_digits h1) (two_digits h2)) by reflexivity.
  rewrite (compare_append ":" ":") by reflexivity.
  rewrite (two_digits_compare h1 h2) by lia.
  rewrite (two_digits_compare m1 m2) by lia.
  cbn [String.compare Ascii.compare].
  change (String.compare ":" ":") with Eq.
  destruct (Nat.compare_spec h1 h2) as [E|E|E]; symmetry.
  - subst h2. destruct (Nat.compare_spec m1 m2) as [E|E|E].
    + apply Nat.compare_eq_iff. lia.
    + apply Nat.compare_lt_iff. lia.
    + apply Nat.compare_gt_iff. lia.
  - apply Nat.compare_lt_iff. lia.
  - apply Nat.compare_gt_iff. lia.
Qed.

(** X18.  On times of day written [HH:MM], as a time input gives them, the
    string comparison of [saveTimetableItem] is the comparison of the
    times: the entry is stored, at the end of the timetable, exactly when
    the end is later than the start, and otherwise the timetable is
    unchanged and the toast asks for an end after the start. *)
Theorem timetable_accepts_later_end (now : Z) (subj d : string)
  (h1 m1 h2 m2 : nat) (a : App) :
  (h1 < 24)%nat -> (m1 < 60)%nat -> (h2 < 24)%nat -> (m2 < 60)%nat ->
  saveTimetableItem now (Some (subj, d, clock h1 m1, clock h2 m2)) a
  = if (h1 * 60 + m1 <? h2 * 60 + m2)%nat
    then (mkApp (world a) (todoItems a)
                (timetableItems a
                 ++ [mkEntry now subj d (clock h1 m1) (clock h2 m2)]),
          StudyTimeAdded)
    else (a, EndMustBeAfterStart).
Proof.
  intros Hh1 Hm1 Hh2 Hm2.
  unfold saveTimetableItem.
  assert (Hne : forall h m, String.eqb (clock h m) "" = false)
    by (intros h m; reflexivity).
  rewrite !Hne. cbn [orb].
  unfold String.leb.
  rewrite (clock_compare h2 m2 h1 m1 Hh2 Hm2 Hh1 Hm1).
  destruct (Nat.ltb_spec (h1 * 60 + m1) (h2 * 60 + m2)) as [Hlt|Hge].
  - apply Nat.compare_gt_iff in Hlt. rewrite Hlt. reflexivity.
  - destruct (Nat.compare_spec (h2 * 60 + m2) (h1 * 60 + m1)) as [E|E|E];
      [reflexivity|reflexivity|lia].
Qed.

Lemma timetable_accepts_later_end_witness :
  snd (saveTimetableItem 1700000000000
         (Some ("math", "Monday", "09:05", "09:05")) (mkApp initialWorld [] []))
  = EndMustBeAfterStart.
Proof.
  change "09:05" with (clock 9 5).
  rewrite (timetable_accepts_later_end 1700000000000 "math" "Monday"
             9 5 9 5 (mkApp initialWorld [] [])); [reflexivity|lia..].
Defined.

(** ** Clearing the unsaved cards *)

(** X19.  Clearing throws away the unsaved cards and nothing else: the
    saved cards, the statistics and the session are untouched, a save is
    then refused for want of cards whether or not its button exists, and
    the deck of the next session is the saved cards, or the sample deck
    when there are none. *)
Theorem clearing_unsaved_cards (now : Z) (saveBtn : bool) (w : World) :
  let w' := fst (clearAllCards w) in
  generatedCards w' = []
  /\ savedCards w' = savedCards w
  /\ userStats w' = userStats w
  /\ studySession w' = studySession w
  /\ saveAllCards_check saveBtn w' = Some NoCardsToSave
  /\ cards (studySession (startStudySession now w'))
     = match savedCards w with
       | [] => fallbackCards sampleQuestions
       | _ :: _ => savedCards w
       end.
Proof.
  cbv zeta. unfold clearAllCards; cbn [fst].
  repeat split; try reflexivity.
  rewrite startStudySession_deck.
  cbn [savedCards generatedCards set_generatedCards].
  rewrite app_nil_r.
  destruct (savedCards w); reflexivity.
Qed.
